(** * database_operations.py: the farmer CRM data-access layer

    A shallow embedding of [DatabaseOperations] (src/database_operations.py).
    The relational store is a record of tables (lists of rows); every SQL
    statement of the source is a function on those lists; the SQLAlchemy
    session is a small state-and-exception monad in which each round trip to
    the store may raise.  The Python code around the statements (defaults,
    [or] chains, slicing, [strip], [try]/[except]) is transcribed as it is
    written.  Log lines are not modelled, nor is the console diagnostic
    [test_windows_postgresql]. *)

From stdpp Require Import gmap strings list sorting.

Open Scope Z_scope.

(** ** Python values *)

Module Py.

(** A [string] stands for a Python [str] whose code points are below 256,
    one character per code point, so [String.length] is [len]. *)

(** Truth value of an [Optional[str]]: [None] and [""] are false. *)
Definition truthy (v : option string) : bool :=
  match v with
  | Some (String _ _) => true
  | _ => false
  end.

(** [a or b] *)
Definition or_ (a b : option string) : option string :=
  if truthy a then a else b.

(** [v or ""], which is always a [str]. *)
Definition or_empty (v : option string) : string :=
  match v with
  | Some (String c s) => String c s
  | _ => ""
  end.

(** [v or d] for a [str] default [d]. *)
Definition or_str (v : option string) (d : string) : string :=
  match v with
  | Some (String c s) => String c s
  | _ => d
  end.

(** A value inside an f-string: [None] prints as the word None. *)
Definition fmt (v : option string) : string :=
  match v with
  | Some s => s
  | None => "None"
  end.

(** [str.isspace] on one code point below 256. *)
Definition isspace (c : Ascii.ascii) : bool :=
  let n := Z.of_N (Ascii.N_of_ascii c) in
  ((9 <=? n) && (n <=? 13)) || ((28 <=? n) && (n <=? 32))
  || (n =? 133) || (n =? 160).

Fixpoint lstrip (s : string) : string :=
  match s with
  | EmptyString => EmptyString
  | String c s' => if isspace c then lstrip s' else s
  end.

Fixpoint rstrip (s : string) : string :=
  match s with
  | EmptyString => EmptyString
  | String c s' =>
      match rstrip s' with
      | EmptyString => if isspace c then EmptyString else String c EmptyString
      | r => String c r
      end
  end.

(** [s.strip()] *)
Definition strip (s : string) : string := rstrip (lstrip s).

(** [s[:n]] *)
Fixpoint slice_to (n : nat) (s : string) : string :=
  match n, s with
  | S n', String c s' => String c (slice_to n' s')
  | _, _ => EmptyString
  end.

(** [dict.get(k)] and [dict.get(k, d)] on a [Dict[str, Optional[str]]]. *)
Definition get (d : gmap string (option string)) (k : string)
  : option string :=
  match d !! k with
  | Some v => v
  | None => None
  end.

Definition get_default (d : gmap string (option string)) (k : string)
    (dflt : string) : option string :=
  match d !! k with
  | Some v => v
  | None => Some dflt
  end.

(** [decimal.Decimal]: coefficient and exponent; false exactly at zero. *)
Record Decimal := { coefficient : Z; exponent : Z }.

(** The numbers the layer returns: an [int], or the [float] made from a
    decimal, kept symbolically (its rounding is not modelled). *)
Inductive number :=
| PyInt (z : Z)
| PyFloat (d : Decimal).

(** [datetime.date] and its [isoformat()], for years 0 to 9999. *)
Record date := { year : Z; month : Z; day : Z }.

Definition digit (n : Z) : Ascii.ascii :=
  Ascii.ascii_of_nat (48 + Z.to_nat (n mod 10)).

Definition pad2 (n : Z) : string :=
  String (digit (n / 10)) (String (digit n) EmptyString).

Definition pad4 (n : Z) : string :=
  String (digit (n / 1000)) (String (digit (n / 100)) (pad2 n)).

Definition isoformat (d : date) : string :=
  pad4 (year d) +:+ "-" +:+ pad2 (month d) +:+ "-" +:+ pad2 (day d).

End Py.

(** ** The tables the statements read and write

    A nullable column is an [option]; keys and timestamps are not nullable. *)

Record farmer_row := {
  f_id : Z;
  f_farm_name : option string;
  f_manager_name : option string;
  f_manager_last_name : option string;
  f_email : option string;
  f_phone : option string;
  f_city : option string;
  f_wa_phone_number : option string
}.

Record field_row := {
  fd_field_id : Z;
  fd_farmer_id : Z;
  fd_field_name : option string;
  fd_field_size : option Py.Decimal;
  fd_field_location : option string;
  fd_soil_type : option string
}.

Record field_crop_row := {
  fc_field_id : Z;
  fc_crop_name : option string;
  fc_variety : option string;
  fc_planting_date : option Py.date;
  fc_status : option string
}.

Record message_row := {
  m_id : Z;
  m_farmer_id : Z;
  m_phone_number : option string;
  m_message_text : option string;
  m_role : option string;
  m_timestamp : Z
}.

Record Store := {
  farmers : list farmer_row;
  fields : list field_row;
  field_crops : list field_crop_row;
  incoming_messages : list message_row;
  crop_technology : list (option string);   (* the crop_type column *)
  messages_id_seq : Z;                      (* last value of the id sequence *)
  current_timestamp : Z                     (* CURRENT_TIMESTAMP *)
}.

Definition with_messages (st : Store) (ms : list message_row) : Store :=
  {| farmers := farmers st; fields := fields st;
     field_crops := field_crops st; incoming_messages := ms;
     crop_technology := crop_technology st;
     messages_id_seq := messages_id_seq st;
     current_timestamp := current_timestamp st |}.

Definition with_seq (st : Store) (n : Z) : Store :=
  {| farmers := farmers st; fields := fields st;
     field_crops := field_crops st;
     incoming_messages := incoming_messages st;
     crop_technology := crop_technology st;
     messages_id_seq := n;
     current_timestamp := current_timestamp st |}.

(** ** Exceptions and the session monad *)

(** What the store raises through SQLAlchemy: connectivity failures
    ([OperationalError], [TimeoutError]) and statement failures
    ([ProgrammingError], [IntegrityError], [DataError]).  All of them are
    subclasses of [Exception]. *)
Inductive exn :=
| OperationalError
| TimeoutError
| ProgrammingError
| IntegrityError
| DataError.

Inductive outcome (A : Type) :=
| Return (a : A)
| Raise (e : exn).
Arguments Return {A} a.
Arguments Raise {A} e.

(** The world an operation runs in.  [committed] is what every other reader
    of the store sees; [pending] holds the rows the open transaction has
    inserted and not yet committed; [faults] says, for each coming round
    trip to the store, whether it fails and how (none left: no failure);
    [observed] lists the committed message table as it stood after each
    round trip. *)
Record World := {
  committed : Store;
  pending : list message_row;
  faults : list (option exn);
  observed : list (list message_row)
}.

Definition M (A : Type) : Type := World -> outcome A * World.

Definition ret {A} (a : A) : M A := fun w => (Return a, w).

Definition raise {A} (e : exn) : M A := fun w => (Raise e, w).

Definition bind {A B} (m : M A) (k : A -> M B) : M B :=
  fun w =>
    match m w with
    | (Return a, w') => k a w'
    | (Raise e, w') => (Raise e, w')
    end.

Notation "'let!' x ':=' m 'in' k" := (bind m (fun x => k))
  (at level 10, x name, m at level 100, k at level 200).

(** [try: body except Exception as e: (log;) return sentinel] *)
Definition try_except {A} (body : M A) (sentinel : A) : M A :=
  fun w =>
    match body w with
    | (Return a, w') => (Return a, w')
    | (Raise _, w') => (Return sentinel, w')
    end.

(** The tables as the open transaction reads them. *)
Definition view (w : World) : Store :=
  with_messages (committed w) (incoming_messages (committed w) ++ pending w).

Definition observe (w : World) : World :=
  {| committed := committed w; pending := pending w; faults := faults w;
     observed := observed w ++ [incoming_messages (committed w)] |}.

(** One round trip: the next entry of [faults] decides whether it fails. *)
Definition round_trip : M unit :=
  fun w =>
    match faults w with
    | Some e :: rest =>
        (Raise e,
         observe {| committed := committed w; pending := pending w;
                    faults := rest; observed := observed w |})
    | None :: rest =>
        (Return tt,
         {| committed := committed w; pending := pending w;
            faults := rest; observed := observed w |})
    | [] => (Return tt, w)
    end.

(** [session.execute(text(SELECT ...), params)]: the statement [q] runs on
    the transaction's view; a statement can itself fail on its arguments. *)
Definition execute {A} (q : Store -> outcome A) : M A :=
  let! _ := round_trip in (fun w => (q (view w), observe w)).

(** [session.execute(text(INSERT INTO incoming_messages ... RETURNING id))]:
    the id is the next value of the sequence (which is not transactional),
    the timestamp is CURRENT_TIMESTAMP, the row is pending until commit. *)
Definition execute_insert_message (farmer_id : Z) (phone_number : option string)
    (message_text : option string) (role : string) : M Z :=
  let! _ := round_trip in
  (fun w =>
     let id := messages_id_seq (committed w) + 1 in
     let row := {| m_id := id; m_farmer_id := farmer_id;
                   m_phone_number := phone_number;
                   m_message_text := message_text;
                   m_role := Some role;
                   m_timestamp := current_timestamp (committed w) |} in
     (Return id,
      observe {| committed := with_seq (committed w) id;
                 pending := pending w ++ [row];
                 faults := faults w; observed := observed w |})).

(** [session.commit()]: the pending rows become visible, all at once. *)
Definition commit : M unit :=
  let! _ := round_trip in
  (fun w =>
     (Return tt,
      observe {| committed := with_messages (committed w)
                   (incoming_messages (committed w) ++ pending w);
                 pending := [];
                 faults := faults w; observed := observed w |})).

(** Leaving [with self.get_session() as session:] closes the session on
    every path, which rolls back whatever was not committed. *)
Definition close (w : World) : World :=
  observe {| committed := committed w; pending := [];
             faults := faults w; observed := observed w |}.

Definition with_session {A} (body : M A) : M A :=
  fun w =>
    let '(r, w') := body {| committed := committed w; pending := [];
                            faults := faults w; observed := observed w |} in
    (r, close w').

(** A fresh world over a committed store. *)
Definition world (st : Store) (fs : list (option exn)) : World :=
  {| committed := st; pending := []; faults := fs; observed := [] |}.

(** What a caller gets. *)
Definition call {A} (op : M A) (st : Store) (fs : list (option exn))
  : outcome A := fst (op (world st fs)).

Definition after {A} (op : M A) (st : Store) (fs : list (option exn))
  : World := snd (op (world st fs)).

(** ** The statements

    Each [sql_*] is the meaning of one [text(...)] of the source on the
    tables.  ORDER BY on a text column is the byte order of [String.leb]
    with NULL last, as PostgreSQL sorts ascending; ties are left to the
    sort.  LIMIT takes a bigint that is not negative: a negative limit, or
    one beyond 2^63 - 1, is an error of the statement. *)

Definition text_le (a b : option string) : Prop :=
  match a, b with
  | _, None => True
  | None, Some _ => False
  | Some x, Some y => String.leb x y = true
  end.

#[global] Instance text_le_dec (a b : option string) : Decision (text_le a b).
Proof. destruct a as [x|], b as [y|]; simpl; apply _. Defined.

Definition limit_in_range (limit : Z) : bool :=
  (0 <=? limit) && (limit <=? 9223372036854775807).

Definition limit_rows {A} (limit : Z) (rows : list A) : outcome (list A) :=
  if limit_in_range limit
  then Return (take (Z.to_nat limit) rows)
  else Raise DataError.

(** SELECT id, farm_name, manager_name, manager_last_name, city,
    wa_phone_number FROM farmers WHERE id = :farmer_id *)
Definition sql_farmer_by_id (farmer_id : Z) (st : Store)
  : outcome (list farmer_row) :=
  Return (filter (fun r => f_id r = farmer_id) (farmers st)).

Definition by_farm_name (a b : farmer_row) : Prop :=
  text_le (f_farm_name a) (f_farm_name b).

#[global] Instance by_farm_name_dec a b : Decision (by_farm_name a b).
Proof. unfold by_farm_name; apply _. Defined.

(** SELECT ... FROM farmers ORDER BY farm_name LIMIT :limit *)
Definition sql_all_farmers (limit : Z) (st : Store)
  : outcome (list farmer_row) :=
  limit_rows limit (merge_sort by_farm_name (farmers st)).

Definition active_crop_of (f : field_row) (c : field_crop_row) : Prop :=
  fd_field_id f = fc_field_id c /\ fc_status c = Some "active".

#[global] Instance active_crop_of_dec f c : Decision (active_crop_of f c).
Proof. unfold active_crop_of; apply _. Defined.

(** fields f LEFT JOIN field_crops fc ON f.field_id = fc.field_id
    AND fc.status = 'active' *)
Definition left_join_active (fs : list field_row) (cs : list field_crop_row)
  : list (field_row * option field_crop_row) :=
  fs ≫= fun f =>
    match filter (active_crop_of f) cs with
    | [] => [(f, None)]
    | matches => (fun c => (f, Some c)) <$> matches
    end.

Definition by_field_name (a b : field_row * option field_crop_row) : Prop :=
  text_le (fd_field_name a.1) (fd_field_name b.1).

#[global] Instance by_field_name_dec a b : Decision (by_field_name a b).
Proof. unfold by_field_name; apply _. Defined.

(** SELECT ... FROM fields f LEFT JOIN field_crops fc ON ...
    WHERE f.farmer_id = :farmer_id ORDER BY f.field_name *)
Definition sql_farmer_fields (farmer_id : Z) (st : Store)
  : outcome (list (field_row * option field_crop_row)) :=
  Return (merge_sort by_field_name
            (filter (fun r => fd_farmer_id r.1 = farmer_id)
               (left_join_active (fields st) (field_crops st)))).

Definition by_timestamp_desc (a b : message_row) : Prop :=
  m_timestamp b <= m_timestamp a.

#[global] Instance by_timestamp_desc_dec a b : Decision (by_timestamp_desc a b).
Proof. unfold by_timestamp_desc; apply _. Defined.

(** SELECT id, message_text, timestamp, role FROM incoming_messages
    WHERE farmer_id = :farmer_id ORDER BY timestamp DESC LIMIT :limit *)
Definition sql_recent_messages (farmer_id limit : Z) (st : Store)
  : outcome (list message_row) :=
  limit_rows limit
    (merge_sort by_timestamp_desc
       (filter (fun m => m_farmer_id m = farmer_id) (incoming_messages st))).

(** LOWER, on code points below 256, in a database whose locale knows the
    Latin-1 letters (as the UTF-8 locales do): A to Z and the accented
    capitals 192 to 222, the multiplication sign 215 apart, move 32 up. *)
Definition lower_char (c : Ascii.ascii) : Ascii.ascii :=
  let n := Ascii.N_of_ascii c in
  if (((65 <=? n) && (n <=? 90))
      || ((192 <=? n) && (n <=? 214))
      || ((216 <=? n) && (n <=? 222)))%N
  then Ascii.ascii_of_N (n + 32)
  else c.

Fixpoint sql_lower (s : string) : string :=
  match s with
  | EmptyString => EmptyString
  | String c s' => String (lower_char c) (sql_lower s')
  end.

(** SELECT DISTINCT crop_type FROM crop_technology
    WHERE LOWER(crop_type) = LOWER(:crop_name) LIMIT 1 *)
Definition sql_crop_type (crop_name : string) (st : Store)
  : outcome (list (option string)) :=
  Return (take 1
            (remove_dups
               (filter (fun c => sql_lower <$> c = Some (sql_lower crop_name))
                  (crop_technology st)))).

(** incoming_messages m JOIN farmers f ON m.farmer_id = f.id *)
Definition join_farmers (ms : list message_row) (fs : list farmer_row)
  : list (message_row * farmer_row) :=
  ms ≫= fun m => (fun f => (m, f)) <$> filter (fun f => m_farmer_id m = f_id f) fs.

Definition by_farmer_then_latest (a b : message_row * farmer_row) : Prop :=
  m_farmer_id a.1 < m_farmer_id b.1
  \/ (m_farmer_id a.1 = m_farmer_id b.1 /\ m_timestamp b.1 <= m_timestamp a.1).

#[global] Instance by_farmer_then_latest_dec a b :
  Decision (by_farmer_then_latest a b).
Proof. unfold by_farmer_then_latest; apply _. Defined.

(** DISTINCT ON (farmer_id) over rows ordered by farmer_id: the first row of
    each run of equal farmer ids is kept. *)
Fixpoint distinct_on_farmer (prev : option Z)
    (rows : list (message_row * farmer_row)) : list (message_row * farmer_row) :=
  match rows with
  | [] => []
  | r :: rest =>
      if decide (prev = Some (m_farmer_id r.1))
      then distinct_on_farmer prev rest
      else r :: distinct_on_farmer (Some (m_farmer_id r.1)) rest
  end.

(** The CTE latest_messages. *)
Definition latest_messages (st : Store) : list (message_row * farmer_row) :=
  distinct_on_farmer None
    (merge_sort by_farmer_then_latest
       (filter (fun r => m_role r.1 = Some "user")
          (join_farmers (incoming_messages st) (farmers st)))).

Definition by_latest (a b : message_row * farmer_row) : Prop :=
  m_timestamp b.1 <= m_timestamp a.1.

#[global] Instance by_latest_dec a b : Decision (by_latest a b).
Proof. unfold by_latest; apply _. Defined.

(** WITH latest_messages AS (...) SELECT * FROM latest_messages
    ORDER BY timestamp DESC LIMIT 100 *)
Definition sql_approval_queue (st : Store)
  : outcome (list (message_row * farmer_row)) :=
  limit_rows 100 (merge_sort by_latest (latest_messages st)).

(** SELECT ... FROM incoming_messages m JOIN farmers f ON m.farmer_id = f.id
    WHERE m.id = :conversation_id *)
Definition sql_message_by_id (conversation_id : Z) (st : Store)
  : outcome (list (message_row * farmer_row)) :=
  Return (filter (fun r => m_id r.1 = conversation_id)
            (join_farmers (incoming_messages st) (farmers st))).

(** SELECT COUNT( * ) FROM farmers *)
Definition sql_count_farmers (st : Store) : outcome (list Z) :=
  Return [Z.of_nat (length (farmers st))].

(** ** The records the operations return *)

Record farmer_info := {
  fi_id : Z;
  fi_farm_name : option string;
  fi_manager_name : option string;
  fi_manager_last_name : option string;
  fi_total_hectares : Z;
  fi_farmer_type : string;
  fi_city : option string;
  fi_wa_phone_number : option string
}.

Record farmer_summary := {
  fs_id : Z;
  fs_name : string;
  fs_farm_name : string;
  fs_phone : string;
  fs_location : string;
  fs_farm_type : string;
  fs_total_size_ha : Py.number
}.

Record field_view := {
  fv_field_id : Z;
  fv_field_name : option string;
  fv_field_size : Py.number;
  fv_field_location : option string;
  fv_soil_type : option string;
  fv_current_crop : option string;
  fv_variety : option string;
  fv_planting_date : option string;
  fv_crop_status : option string
}.

Record turn := {
  tn_id : Z;
  tn_user_input : option string;
  tn_ava_response : option string;
  tn_timestamp : Z;
  tn_message_type : string;
  tn_confidence_score : Py.number;
  tn_approved_status : bool
}.

Record crop_info := {
  ci_id : Z;
  ci_crop_name : string;
  ci_croatian_name : string;
  ci_category : string;
  ci_planting_season : string;
  ci_harvest_season : string;
  ci_description : string
}.

Record approval_entry := {
  ae_id : Z;
  ae_farmer_id : Z;
  ae_farmer_name : string;
  ae_farmer_phone : string;
  ae_farmer_location : string;
  ae_farmer_type : string;
  ae_farmer_size : string;
  ae_last_message : string;
  ae_timestamp : Z
}.

Record approval_queue := {
  unapproved : list approval_entry;
  approved : list approval_entry
}.

Record detail_view := {
  dv_id : Z;
  dv_farmer_id : Z;
  dv_farmer_name : string;
  dv_user_input : option string;
  dv_ava_response : option string;
  dv_timestamp : Z;
  dv_approved_status : bool
}.

(** ** The operations of [DatabaseOperations] *)

(** [f"{a} {b}".strip() if a and b else "Unknown"] *)
Definition display_name (a b : option string) : string :=
  if Py.truthy a && Py.truthy b
  then Py.strip (Py.fmt a +:+ " " +:+ Py.fmt b)
  else "Unknown".

(** [text if role == tag else ""] *)
Definition slot (tag : string) (role text : option string) : option string :=
  if decide (role = Some tag) then text else Some "".

(** [t[:100] + "..." if t and len(t) > 100 else t or ""] *)
Definition last_message (t : option string) : string :=
  match t with
  | Some s =>
      if Py.truthy t && (100 <? Z.of_nat (String.length s))
      then Py.slice_to 100 s +:+ "..."
      else Py.or_empty t
  | None => Py.or_empty t
  end.

(** [float(size) if size else 0] *)
Definition size_or_zero (size : option Py.Decimal) : Py.number :=
  match size with
  | Some d => if Py.coefficient d =? 0 then Py.PyInt 0 else Py.PyFloat d
  | None => Py.PyInt 0
  end.

(** The dictionary [get_farmer_info] builds from a row. *)
Definition farmer_info_of (result : farmer_row) : farmer_info :=
  {| fi_id := f_id result;
     fi_farm_name := f_farm_name result;
     fi_manager_name := f_manager_name result;
     fi_manager_last_name := f_manager_last_name result;
     fi_total_hectares := 0;
     fi_farmer_type := "Farm";
     fi_city := f_city result;
     fi_wa_phone_number := f_wa_phone_number result |}.

Definition get_farmer_info (farmer_id : Z) : M (option farmer_info) :=
  try_except
    (with_session
       (let! rows := execute (sql_farmer_by_id farmer_id) in
        match head rows with
        | Some result => ret (Some (farmer_info_of result))
        | None => ret None
        end))
    None.

Definition farmer_summary_of (row : farmer_row) : farmer_summary :=
  {| fs_id := f_id row;
     fs_name := display_name (f_manager_name row) (f_manager_last_name row);
     fs_farm_name := Py.or_str (f_farm_name row) "Unknown Farm";
     fs_phone := Py.or_empty (Py.or_ (f_phone row) (f_wa_phone_number row));
     fs_location := Py.or_empty (f_city row);
     fs_farm_type := "Farm";
     fs_total_size_ha := Py.PyFloat {| Py.coefficient := 0; Py.exponent := 0 |} |}.

Definition get_all_farmers (limit : Z) : M (list farmer_summary) :=
  try_except
    (with_session
       (let! results := execute (sql_all_farmers limit) in
        ret (farmer_summary_of <$> results)))
    [].

Definition field_view_of (row : field_row * option field_crop_row)
  : field_view :=
  {| fv_field_id := fd_field_id row.1;
     fv_field_name := fd_field_name row.1;
     fv_field_size := size_or_zero (fd_field_size row.1);
     fv_field_location := fd_field_location row.1;
     fv_soil_type := fd_soil_type row.1;
     fv_current_crop := row.2 ≫= fc_crop_name;
     fv_variety := row.2 ≫= fc_variety;
     fv_planting_date := Py.isoformat <$> (row.2 ≫= fc_planting_date);
     fv_crop_status := row.2 ≫= fc_status |}.

Definition get_farmer_fields (farmer_id : Z) : M (list field_view) :=
  try_except
    (with_session
       (let! results := execute (sql_farmer_fields farmer_id) in
        ret (field_view_of <$> results)))
    [].

Definition turn_of (row : message_row) : turn :=
  {| tn_id := m_id row;
     tn_user_input := slot "user" (m_role row) (m_message_text row);
     tn_ava_response := slot "assistant" (m_role row) (m_message_text row);
     tn_timestamp := m_timestamp row;
     tn_message_type := "chat";
     tn_confidence_score := Py.PyFloat {| Py.coefficient := 8; Py.exponent := -1 |};
     tn_approved_status := false |}.

Definition get_recent_conversations (farmer_id limit : Z) : M (list turn) :=
  try_except
    (with_session
       (let! results := execute (sql_recent_messages farmer_id limit) in
        ret (turn_of <$> results)))
    [].

Definition save_conversation (farmer_id : Z)
    (conversation_data : gmap string (option string)) : M (option Z) :=
  try_except
    (with_session
       (let! result1 :=
          execute_insert_message farmer_id
            (Py.get_default conversation_data "wa_phone_number" "unknown")
            (Py.get conversation_data "question") "user" in
        let! result2 :=
          execute_insert_message farmer_id
            (Py.get_default conversation_data "wa_phone_number" "unknown")
            (Py.get conversation_data "answer") "assistant" in
        let! _ := commit in
        let conv_id := result2 in
        ret (Some conv_id)))
    None.

Definition get_crop_info (crop_name : string) : M (option crop_info) :=
  try_except
    (with_session
       (let! rows := execute (sql_crop_type crop_name) in
        match head rows with
        | Some result =>
            ret (Some {| ci_id := 1;
                         ci_crop_name := Py.fmt result;
                         ci_croatian_name := Py.fmt result;
                         ci_category := "Crop";
                         ci_planting_season := "Spring";
                         ci_harvest_season := "Fall";
                         ci_description :=
                           "Information about " +:+ Py.fmt result |})
        | None => ret None
        end))
    None.

Definition approval_entry_of (row : message_row * farmer_row)
  : approval_entry :=
  {| ae_id := m_id row.1;
     ae_farmer_id := m_farmer_id row.1;
     ae_farmer_name :=
       display_name (f_manager_name row.2) (f_manager_last_name row.2);
     ae_farmer_phone := Py.or_empty (f_phone row.2);
     ae_farmer_location := Py.or_empty (f_city row.2);
     ae_farmer_type := "Farm";
     ae_farmer_size := "0.0";
     ae_last_message := last_message (m_message_text row.1);
     ae_timestamp := m_timestamp row.1 |}.

Definition get_conversations_for_approval : M approval_queue :=
  try_except
    (with_session
       (let! results := execute sql_approval_queue in
        ret {| unapproved := approval_entry_of <$> results; approved := [] |}))
    {| unapproved := []; approved := [] |}.

Definition get_conversation_details (conversation_id : Z)
  : M (option detail_view) :=
  try_except
    (with_session
       (let! rows := execute (sql_message_by_id conversation_id) in
        match head rows with
        | Some result =>
            ret (Some {| dv_id := m_id result.1;
                         dv_farmer_id := m_farmer_id result.1;
                         dv_farmer_name :=
                           display_name (f_manager_name result.2)
                             (f_manager_last_name result.2);
                         dv_user_input :=
                           slot "user" (m_role result.1)
                             (m_message_text result.1);
                         dv_ava_response :=
                           slot "assistant" (m_role result.1)
                             (m_message_text result.1);
                         dv_timestamp := m_timestamp result.1;
                         dv_approved_status := false |})
        | None => ret None
        end))
    None.

Definition health_check : M bool :=
  try_except
    (with_session
       (let! result := execute sql_count_farmers in
        let count := head result in
        ret true))
    false.

(** ** All operations behind one entry point *)

Inductive operation :=
| GetFarmerInfo (farmer_id : Z)
| GetAllFarmers (limit : Z)
| GetFarmerFields (farmer_id : Z)
| GetRecentConversations (farmer_id limit : Z)
| SaveConversation (farmer_id : Z) (data : gmap string (option string))
| GetCropInfo (crop_name : string)
| GetConversationsForApproval
| GetConversationDetails (conversation_id : Z)
| HealthCheck.

Inductive response :=
| FarmerInfo (r : option farmer_info)
| Farmers (r : list farmer_summary)
| Fields (r : list field_view)
| Turns (r : list turn)
| SavedId (r : option Z)
| CropInfo (r : option crop_info)
| Queue (r : approval_queue)
| Details (r : option detail_view)
| Healthy (r : bool).

Definition lift {A B} (f : A -> B) (m : M A) : M B :=
  fun w =>
    match m w with
    | (Return a, w') => (Return (f a), w')
    | (Raise e, w') => (Raise e, w')
    end.

Definition perform (op : operation) : M response :=
  match op with
  | GetFarmerInfo farmer_id => lift FarmerInfo (get_farmer_info farmer_id)
  | GetAllFarmers limit => lift Farmers (get_all_farmers limit)
  | GetFarmerFields farmer_id => lift Fields (get_farmer_fields farmer_id)
  | GetRecentConversations farmer_id limit =>
      lift Turns (get_recent_conversations farmer_id limit)
  | SaveConversation farmer_id data =>
      lift SavedId (save_conversation farmer_id data)
  | GetCropInfo crop_name => lift CropInfo (get_crop_info crop_name)
  | GetConversationsForApproval => lift Queue get_conversations_for_approval
  | GetConversationDetails conversation_id =>
      lift Details (get_conversation_details conversation_id)
  | HealthCheck => lift Healthy health_check
  end.

(** The value each operation returns from its [except] branch. *)
Definition sentinel (op : operation) : response :=
  match op with
  | GetFarmerInfo _ => FarmerInfo None
  | GetAllFarmers _ => Farmers []
  | GetFarmerFields _ => Fields []
  | GetRecentConversations _ _ => Turns []
  | SaveConversation _ _ => SavedId None
  | GetCropInfo _ => CropInfo None
  | GetConversationsForApproval => Queue {| unapproved := []; approved := [] |}
  | GetConversationDetails _ => Details None
  | HealthCheck => Healthy false
  end.

(** How many round trips to the store an operation makes when none fails. *)
Definition round_trips (op : operation) : nat :=
  match op with
  | SaveConversation _ _ => 3
  | _ => 1
  end.

(** The failure of the first round trip, if it fails. *)
Definition first_fault (fs : list (option exn)) : option exn :=
  match fs with
  | Some e :: _ => Some e
  | _ => None
  end.

(** ** Sample data *)

(** The farmer of the round-trip scenario. *)
Definition green_acres : farmer_row :=
  {| f_id := 1; f_farm_name := Some "Green Acres";
     f_manager_name := Some "Jane"; f_manager_last_name := Some "Doe";
     f_email := None; f_phone := None; f_city := Some "Springfield";
     f_wa_phone_number := Some "555-0100" |}.

Definition empty_store : Store :=
  {| farmers := []; fields := []; field_crops := [];
     incoming_messages := []; crop_technology := [];
     messages_id_seq := 0; current_timestamp := 0 |}.

Definition with_farmers (st : Store) (fs : list farmer_row) : Store :=
  {| farmers := fs; fields := fields st; field_crops := field_crops st;
     incoming_messages := incoming_messages st;
     crop_technology := crop_technology st;
     messages_id_seq := messages_id_seq st;
     current_timestamp := current_timestamp st |}.

Definition green_store : Store := with_farmers empty_store [green_acres].

(** Some round trip among the first [n] fails. *)
Definition fails_within (n : nat) (fs : list (option exn)) : Prop :=
  exists i e, (i < n)%nat /\ fs !! i = Some (Some e).

(** The two rows [save_conversation] sends to the store. *)
Definition user_row (st : Store) (farmer_id : Z)
    (data : gmap string (option string)) : message_row :=
  {| m_id := messages_id_seq st + 1;
     m_farmer_id := farmer_id;
     m_phone_number := Py.get_default data "wa_phone_number" "unknown";
     m_message_text := Py.get data "question";
     m_role := Some "user";
     m_timestamp := current_timestamp st |}.

Definition assistant_row (st : Store) (farmer_id : Z)
    (data : gmap string (option string)) : message_row :=
  {| m_id := messages_id_seq st + 1 + 1;
     m_farmer_id := farmer_id;
     m_phone_number := Py.get_default data "wa_phone_number" "unknown";
     m_message_text := Py.get data "answer";
     m_role := Some "assistant";
     m_timestamp := current_timestamp st |}.

Definition turn_data : gmap string (option string) :=
  {[ "question" := Some "When do I sow maize?";
     "answer" := Some "After the last frost.";
     "phone" := Some "555-0100" ]}.

(** A store with two farmers, two fields and four messages. *)
Definition second_farmer : farmer_row :=
  {| f_id := 2; f_farm_name := None;
     f_manager_name := Some "Ana"; f_manager_last_name := None;
     f_email := None; f_phone := Some ""; f_city := None;
     f_wa_phone_number := Some "555-0200" |}.

Definition zeta_farmer : farmer_row :=
  {| f_id := 3; f_farm_name := Some "Zeta Farm";
     f_manager_name := Some " Zed"; f_manager_last_name := Some "Zorn ";
     f_email := None; f_phone := Some "555-0300"; f_city := None;
     f_wa_phone_number := Some "555-0301" |}.

Definition north_field : field_row :=
  {| fd_field_id := 10; fd_farmer_id := 1; fd_field_name := Some "North";
     fd_field_size := None; fd_field_location := None;
     fd_soil_type := Some "loam" |}.

Definition south_field : field_row :=
  {| fd_field_id := 11; fd_farmer_id := 1; fd_field_name := Some "South";
     fd_field_size := Some {| Py.coefficient := 25; Py.exponent := -1 |};
     fd_field_location := None; fd_soil_type := None |}.

Definition long_text : string :=
  "My maize leaves are turning yellow at the edges and some plants show purple stems after the cold nights, what should I do now?".

Definition first_question : message_row :=
  {| m_id := 1; m_farmer_id := 1; m_phone_number := Some "555-0100";
     m_message_text := Some "When do I sow maize?"; m_role := Some "user";
     m_timestamp := 100 |}.

Definition first_answer : message_row :=
  {| m_id := 2; m_farmer_id := 1; m_phone_number := Some "555-0100";
     m_message_text := Some "After the last frost.";
     m_role := Some "assistant"; m_timestamp := 100 |}.

Definition long_question : message_row :=
  {| m_id := 3; m_farmer_id := 1; m_phone_number := Some "555-0100";
     m_message_text := Some long_text; m_role := Some "user";
     m_timestamp := 200 |}.

Definition empty_question : message_row :=
  {| m_id := 4; m_farmer_id := 2; m_phone_number := Some "555-0200";
     m_message_text := None; m_role := Some "user"; m_timestamp := 150 |}.

Definition sample_messages : list message_row :=
  [first_question; first_answer; long_question; empty_question].

Definition sample_store : Store :=
  {| farmers := [green_acres; second_farmer; zeta_farmer];
     fields := [south_field; north_field];
     field_crops :=
       [ {| fc_field_id := 11; fc_crop_name := Some "maize";
            fc_variety := Some "P9911";
            fc_planting_date :=
              Some {| Py.year := 2024; Py.month := 4; Py.day := 20 |};
            fc_status := Some "active" |};
         {| fc_field_id := 10; fc_crop_name := Some "wheat";
            fc_variety := None; fc_planting_date := None;
            fc_status := Some "harvested" |} ];
     incoming_messages := sample_messages;
     crop_technology := [Some "Maize"; Some "Wheat"];
     messages_id_seq := 4;
     current_timestamp := 300 |}.

(** The farmer ids that have at least one message with role user. *)
Definition user_farmer_ids (st : Store) : list Z :=
  remove_dups
    (m_farmer_id
       <$> filter (fun m => m_role m = Some "user") (incoming_messages st)).

(** A store with 101 farmers, each with one user message; farmer [i] wrote
    at time [i]. *)
Definition crowd_farmer (i : Z) : farmer_row :=
  {| f_id := i; f_farm_name := Some "Farm";
     f_manager_name := Some "A"; f_manager_last_name := Some "B";
     f_email := None; f_phone := None; f_city := None;
     f_wa_phone_number := None |}.

Definition crowd_message (i : Z) : message_row :=
  {| m_id := i; m_farmer_id := i; m_phone_number := None;
     m_message_text := Some "hello"; m_role := Some "user";
     m_timestamp := i |}.

Definition crowd_store : Store :=
  {| farmers := crowd_farmer <$> seqZ 1 101;
     fields := []; field_crops := [];
     incoming_messages := crowd_message <$> seqZ 1 101;
     crop_technology := [];
     messages_id_seq := 101;
     current_timestamp := 102 |}.

(** ** Words of the specification *)

(** A name part or phone that is missing: NULL or empty. *)
Definition missing (v : option string) : Prop := v = None \/ v = Some "".

Fixpoint all_space (s : string) : bool :=
  match s with
  | EmptyString => true
  | String c s' => Py.isspace c && all_space s'
  end.

Definition starts_with_space (s : string) : bool :=
  match s with
  | EmptyString => false
  | String c _ => Py.isspace c
  end.

Fixpoint ends_with_space (s : string) : bool :=
  match s with
  | EmptyString => false
  | String c EmptyString => Py.isspace c
  | String _ s' => ends_with_space s'
  end.

(** [t] is [s] trimmed of surrounding whitespace: [s] is [t] between two
    runs of whitespace, and [t] neither starts nor ends with whitespace. *)
Definition trimmed_of (s t : string) : Prop :=
  (exists l r, s = l +:+ t +:+ r /\ all_space l = true /\ all_space r = true)
  /\ starts_with_space t = false /\ ends_with_space t = false.



(** Bounds on the farmer ids that follow the id DISTINCT ON saw last. *)
Definition above (prev : option Z) (n : Z) : Prop :=
  match prev with
  | Some p => p <= n
  | None => True
  end.

Definition strictly_above (prev : option Z) (n : Z) : Prop :=
  match prev with
  | Some p => p < n
  | None => True
  end.

(** The messages of one farmer, in table order. *)
Definition farmer_messages (st : Store) (farmer_id : Z) : list message_row :=
  filter (fun m => m_farmer_id m = farmer_id) (incoming_messages st).

(** Turns newest first. *)
Definition newer_first (a b : turn) : Prop := tn_timestamp b <= tn_timestamp a.

(** Queue entries newest first. *)
Definition newer_entry_first (a b : approval_entry) : Prop :=
  ae_timestamp b <= ae_timestamp a.


(** The dictionary [get_crop_info] builds from the crop_type it found. *)
Definition crop_info_of (result : option string) : crop_info :=
  {| ci_id := 1;
     ci_crop_name := Py.fmt result;
     ci_croatian_name := Py.fmt result;
     ci_category := "Crop";
     ci_planting_season := "Spring";
     ci_harvest_season := "Fall";
     ci_description := "Information about " +:+ Py.fmt result |}.

(** The dictionary [get_conversation_details] builds from a joined row. *)
Definition detail_view_of (result : message_row * farmer_row) : detail_view :=
  {| dv_id := m_id result.1;
     dv_farmer_id := m_farmer_id result.1;
     dv_farmer_name :=
       display_name (f_manager_name result.2) (f_manager_last_name result.2);
     dv_user_input := slot "user" (m_role result.1) (m_message_text result.1);
     dv_ava_response :=
       slot "assistant" (m_role result.1) (m_message_text result.1);
     dv_timestamp := m_timestamp result.1;
     dv_approved_status := false |}.

(** ** The constructor *)

(** [s.startswith(prefix)] *)
Fixpoint startswith (s prefix : string) : bool :=
  match prefix, s with
  | EmptyString, _ => true
  | String p prefix', String c s' =>
      if decide (c = p) then startswith s' prefix' else false
  | String _ _, EmptyString => false
  end.

(** The connection string [__init__] goes on with:
    [connection_string or DATABASE_URL].  [DATABASE_URL] comes from the
    configuration module and is a parameter here. *)
Definition effective_connection_string (connection_string : option string)
    (DATABASE_URL : string) : string :=
  Py.or_str connection_string DATABASE_URL.

(** The assertion at the head of [__init__]: [Some] of the connection string
    the engine is then created with, [None] for the [AssertionError]. *)
Definition init_connection_string (connection_string : option string)
    (DATABASE_URL : string) : option string :=
  let connection_string :=
    effective_connection_string connection_string DATABASE_URL in
  if startswith connection_string "postgresql://"
  then Some connection_string
  else None.

(** A message table holding a note whose role is neither of the two tags. *)
Definition system_note : message_row :=
  {| m_id := 1; m_farmer_id := 1; m_phone_number := None;
     m_message_text := Some "Call back on Monday"; m_role := Some "system";
     m_timestamp := 50 |}.

Definition notes_store : Store := with_messages green_store [system_note].

(** Spelt, with a capital and with a small e acute (code points 201, 233). *)
Definition spelt_capital : string :=
  String (Ascii.ascii_of_nat 201) "peautre".

Definition spelt_small : string :=
  String (Ascii.ascii_of_nat 233) "peautre".

Definition spelt_store : Store :=
  {| farmers := []; fields := []; field_crops := [];
     incoming_messages := []; crop_technology := [Some spelt_capital];
     messages_id_seq := 0; current_timestamp := 0 |}.

(** * Properties *)

(** ** Running a single-statement operation *)

Lemma view_fresh st fs obs :
  view {| committed := st; pending := []; faults := fs; observed := obs |} = st.
Proof. destruct st; unfold view, with_messages; simpl. by rewrite app_nil_r. Qed.

Section single_statement.
Context {A B : Type} (q : Store -> outcome A) (k : A -> M B) (f : A -> B).
Hypothesis k_pure : forall a w, k a w = (Return (f a), w).

Lemma call_single_fault sentinel st e fs :
  call (try_except (with_session (let! rows := execute q in k rows)) sentinel)
    st (Some e :: fs) = Return sentinel.
Proof. reflexivity. Qed.

Lemma call_single_ok sentinel st fs :
  first_fault fs = None ->
  call (try_except (with_session (let! rows := execute q in k rows)) sentinel)
    st fs
  = match q st with
    | Return rows => Return (f rows)
    | Raise _ => Return sentinel
    end.
Proof.
  intros Hfs. unfold call, try_except, with_session, bind, execute, round_trip.
  destruct fs as [|[e|] fs]; try discriminate; simpl;
    rewrite view_fresh; destruct (q st); simpl; rewrite ?k_pure; reflexivity.
Qed.

Lemma call_single_inv sentinel st fs b :
  call (try_except (with_session (let! rows := execute q in k rows)) sentinel)
    st fs = Return b ->
  b = sentinel \/ exists rows, q st = Return rows /\ b = f rows.
Proof.
  destruct fs as [|[e|] fs];
    [ rewrite call_single_ok by done
    | rewrite call_single_fault; intros [= <-]; by left
    | rewrite call_single_ok by done ];
    (destruct (q st) as [rows|e] eqn:Hq; intros [= <-];
     [right; by exists rows | by left]).
Qed.
End single_statement.

(** ** get_farmer_info *)

Lemma get_farmer_info_ok st fs farmer_id :
  first_fault fs = None ->
  call (get_farmer_info farmer_id) st fs
  = Return (farmer_info_of <$> head (filter (fun r => f_id r = farmer_id) (farmers st))).
Proof.
  intros Hfs. unfold get_farmer_info.
  rewrite (call_single_ok _ _ (fun rows => farmer_info_of <$> head rows)); auto.
  intros rows w. destruct (head rows); reflexivity.
Qed.

Lemma head_filter_unique (l : list farmer_row) r :
  NoDup (f_id <$> l) -> r ∈ l ->
  head (filter (fun x => f_id x = f_id r) l) = Some r.
Proof.
  induction l as [|x l IH]; intros Hnd Hin; [by apply elem_of_nil in Hin|].
  rewrite fmap_cons in Hnd. apply NoDup_cons in Hnd as [Hx Hnd].
  rewrite filter_cons. apply elem_of_cons in Hin as [->|Hin].
  - by rewrite decide_True.
  - rewrite decide_False; [auto|].
    intros Heq. apply Hx. rewrite Heq. by apply list_elem_of_fmap_2.
Qed.

Lemma filter_none {A} (P : A -> Prop) `{forall x, Decision (P x)} (l : list A) :
  (forall x, x ∈ l -> ~ P x) -> filter P l = [].
Proof.
  induction l as [|x l IH]; intros Hno; [done|].
  rewrite filter_cons, decide_False by (apply Hno; left).
  apply IH. intros y Hy. apply Hno. by right.
Qed.

(** C4. When the store answers and farmer ids are unique, [get_farmer_info]
    on the id of a stored row returns a record with that id, with farm_name,
    manager_name, manager_last_name, city and wa_phone_number taken from the
    row, and with total_hectares 0 and farmer_type "Farm".  On an id no row
    carries it returns [None]; in no case does it raise. *)
Theorem get_farmer_info_spec (st : Store) (fs : list (option exn))
    (farmer_id : Z) :
  (forall r,
      first_fault fs = None ->
      NoDup (f_id <$> farmers st) ->
      r ∈ farmers st -> f_id r = farmer_id ->
      call (get_farmer_info farmer_id) st fs
      = Return (Some {| fi_id := farmer_id;
                        fi_farm_name := f_farm_name r;
                        fi_manager_name := f_manager_name r;
                        fi_manager_last_name := f_manager_last_name r;
                        fi_total_hectares := 0;
                        fi_farmer_type := "Farm";
                        fi_city := f_city r;
                        fi_wa_phone_number := f_wa_phone_number r |}))
  /\ ((forall r, r ∈ farmers st -> f_id r <> farmer_id) ->
      call (get_farmer_info farmer_id) st fs = Return None)
  /\ (exists v, call (get_farmer_info farmer_id) st fs = Return v).
Proof.
  split; [|split].
  - intros r Hfs Hnd Hin <-.
    rewrite get_farmer_info_ok by done.
    by rewrite head_filter_unique.
  - intros Hno. destruct fs as [|[e|] fs]; [|reflexivity|];
      (rewrite get_farmer_info_ok by done;
       rewrite filter_none; [reflexivity|]; intros x Hx; by apply Hno).
  - destruct fs as [|[e|] fs]; [|by eexists|];
      rewrite get_farmer_info_ok by done; by eexists.
Qed.

Lemma get_farmer_info_spec_witness :
  call (get_farmer_info 1) green_store []
  = Return (Some {| fi_id := 1;
                    fi_farm_name := Some "Green Acres";
                    fi_manager_name := Some "Jane";
                    fi_manager_last_name := Some "Doe";
                    fi_total_hectares := 0;
                    fi_farmer_type := "Farm";
                    fi_city := Some "Springfield";
                    fi_wa_phone_number := Some "555-0100" |})
  /\ call (get_farmer_info 2) green_store [Some OperationalError] = Return None.
Proof.
  split.
  - apply (proj1 (get_farmer_info_spec green_store [] 1) green_acres).
    + reflexivity.
    + vm_compute. repeat constructor. by intros ?%elem_of_nil.
    + vm_compute. left.
    + reflexivity.
  - apply (proj1 (proj2 (get_farmer_info_spec green_store
                           [Some OperationalError] 2))).
    intros r Hr. vm_compute in Hr. apply list_elem_of_singleton in Hr.
    subst r. vm_compute. discriminate.
Defined.

(** ** Failures of the store *)

Lemma lift_call {A B} (f : A -> B) (m : M A) st fs a :
  call m st fs = Return a -> call (lift f m) st fs = Return (f a).
Proof.
  unfold call, lift. destruct (m (world st fs)) as [[x|e] w]; simpl; congruence.
Qed.

Lemma try_except_returns {A} (body : M A) (s : A) st fs :
  exists v, call (try_except body s) st fs = Return v.
Proof.
  unfold call, try_except.
  destruct (body (world st fs)) as [[x|e] w]; simpl; eauto.
Qed.

Lemma perform_returns op st fs : exists v, call (perform op) st fs = Return v.
Proof.
  destruct op; simpl;
    unfold get_farmer_info, get_all_farmers, get_farmer_fields,
      get_recent_conversations, save_conversation, get_crop_info,
      get_conversations_for_approval, get_conversation_details, health_check;
    match goal with
    | |- context [lift ?f (try_except ?b ?s)] =>
        destruct (try_except_returns b s st fs) as [v Hv];
        exists (f v); by apply lift_call
    end.
Qed.

Lemma save_conversation_fault farmer_id data st fs n e :
  (n < 3)%nat -> fs !! n = Some (Some e) ->
  call (save_conversation farmer_id data) st fs = Return None.
Proof.
  intros Hn Hfs.
  destruct fs as [|[e1|] [|[e2|] [|[e3|] fs]]];
    destruct n as [|[|[|n]]]; simpl in Hfs; try discriminate; try lia;
    reflexivity.
Qed.

Lemma limit_in_range_spec limit :
  limit_in_range limit = true <-> 0 <= limit <= 9223372036854775807.
Proof. unfold limit_in_range. rewrite andb_true_iff, !Z.leb_le. lia. Qed.

Lemma limit_in_range_negative limit :
  limit < 0 -> limit_in_range limit = false.
Proof.
  intros Hneg. destruct (limit_in_range limit) eqn:Hr; [|done].
  apply limit_in_range_spec in Hr. lia.
Qed.

Lemma limit_in_range_true limit :
  0 <= limit <= 9223372036854775807 -> limit_in_range limit = true.
Proof. apply limit_in_range_spec. Qed.

Lemma negative_limit_all_farmers limit st fs :
  limit < 0 -> call (get_all_farmers limit) st fs = Return [].
Proof.
  intros Hneg. destruct fs as [|[e|] fs]; [|reflexivity|];
    (unfold get_all_farmers;
     rewrite (call_single_ok _ _ (fmap farmer_summary_of)) by done;
     unfold sql_all_farmers, limit_rows;
     by rewrite limit_in_range_negative).
Qed.

Lemma negative_limit_recent_conversations farmer_id limit st fs :
  limit < 0 ->
  call (get_recent_conversations farmer_id limit) st fs = Return [].
Proof.
  intros Hneg. destruct fs as [|[e|] fs]; [|reflexivity|];
    (unfold get_recent_conversations;
     rewrite (call_single_ok _ _ (fmap turn_of)) by done;
     unfold sql_recent_messages, limit_rows;
     by rewrite limit_in_range_negative).
Qed.

(** C3. No operation ever raises: whatever the store does, the caller gets a
    value.  When a round trip the operation makes fails, with a connectivity
    failure or a statement failure alike, that value is the operation's
    empty sentinel: [None] for the single-record operations, the empty list
    (the empty queue) for the list operations, [false] for [health_check].
    The same holds for a statement the store rejects for its argument, a
    negative LIMIT. *)
Theorem store_failure_becomes_sentinel (op : operation) (st : Store)
    (fs : list (option exn)) :
  (exists v, call (perform op) st fs = Return v)
  /\ (forall n e,
         (n < round_trips op)%nat -> fs !! n = Some (Some e) ->
         call (perform op) st fs = Return (sentinel op))
  /\ (forall farmer_id limit,
         limit < 0 ->
         (op = GetAllFarmers limit
          \/ op = GetRecentConversations farmer_id limit) ->
         call (perform op) st fs = Return (sentinel op)).
Proof.
  split; [apply perform_returns|]. split.
  - intros n e Hn Hfs.
    destruct op; simpl in Hn;
      try (destruct n; [|lia]; destruct fs as [|[e'|] fs]; simpl in Hfs;
           try discriminate; reflexivity).
    simpl. apply lift_call. by eapply save_conversation_fault.
  - intros farmer_id limit Hneg [-> | ->]; simpl; apply lift_call.
    + by apply negative_limit_all_farmers.
    + by apply negative_limit_recent_conversations.
Qed.

Lemma store_failure_becomes_sentinel_witness :
  call health_check green_store [Some OperationalError] = Return false
  /\ call (perform (SaveConversation 1 ∅)) green_store
       [None; None; Some TimeoutError]
     = Return (SavedId None).
Proof.
  split.
  - pose proof (proj1 (proj2 (store_failure_becomes_sentinel HealthCheck
                                green_store [Some OperationalError]))
                  0%nat OperationalError) as H.
    simpl in H. unfold call, lift in H. unfold call.
    destruct (health_check (world green_store [Some OperationalError]))
      as [[b|x] w]; simpl in *;
      specialize (H ltac:(lia) eq_refl); congruence.
  - apply (proj1 (proj2 (store_failure_becomes_sentinel (SaveConversation 1 ∅)
                           green_store [None; None; Some TimeoutError]))
             2%nat TimeoutError); [simpl; lia | reflexivity].
Defined.

(** ** save_conversation *)

Lemma fails_within_cases (fs : list (option exn)) :
  fails_within 3 fs \/ ~ fails_within 3 fs.
Proof.
  destruct fs as [|[e1|] [|[e2|] [|[e3|] fs]]];
    try (left; by first
           [ exists 0%nat; eexists; split; [lia|reflexivity]
           | exists 1%nat; eexists; split; [lia|reflexivity]
           | exists 2%nat; eexists; split; [lia|reflexivity] ]);
    right; intros (i & e & Hi & Hfs);
    destruct i as [|[|[|i]]]; simpl in Hfs; try discriminate; lia.
Qed.

Lemma save_conversation_ok farmer_id data st fs :
  ~ fails_within 3 fs ->
  let new := incoming_messages st
             ++ [user_row st farmer_id data; assistant_row st farmer_id data] in
  call (save_conversation farmer_id data) st fs
  = Return (Some (messages_id_seq st + 1 + 1))
  /\ incoming_messages (committed (after (save_conversation farmer_id data) st fs))
     = new
  /\ observed (after (save_conversation farmer_id data) st fs)
     = [incoming_messages st; incoming_messages st; new; new].
Proof.
  intros Hok.
  destruct fs as [|[e1|] [|[e2|] [|[e3|] fs]]];
    try (exfalso; apply Hok; by first
           [ exists 0%nat; eexists; split; [lia|reflexivity]
           | exists 1%nat; eexists; split; [lia|reflexivity]
           | exists 2%nat; eexists; split; [lia|reflexivity] ]);
    (split; [reflexivity|split; reflexivity]).
Qed.

Lemma save_conversation_failed farmer_id data st fs :
  fails_within 3 fs ->
  call (save_conversation farmer_id data) st fs = Return None
  /\ incoming_messages (committed (after (save_conversation farmer_id data) st fs))
     = incoming_messages st
  /\ Forall (eq (incoming_messages st))
       (observed (after (save_conversation farmer_id data) st fs)).
Proof.
  intros (i & e & Hi & Hfs).
  destruct fs as [|[e1|] [|[e2|] [|[e3|] fs]]];
    destruct i as [|[|[|i]]]; simpl in Hfs; try discriminate; try lia;
    (split; [reflexivity|split; [reflexivity|repeat constructor]]).
Qed.



(** C10. The phone number on both rows [save_conversation] inserts is the
    value under the key wa_phone_number of its mapping; when the mapping has
    no such key it is "unknown", whatever else the mapping holds (a phone
    under the key phone is not looked at). *)
Theorem save_conversation_phone (farmer_id : Z)
    (data : gmap string (option string)) (st : Store)
    (fs : list (option exn)) :
  ~ fails_within 3 fs ->
  exists u a,
    incoming_messages (committed (after (save_conversation farmer_id data) st fs))
    = incoming_messages st ++ [u; a]
    /\ (forall v, data !! "wa_phone_number" = Some v ->
                  m_phone_number u = v /\ m_phone_number a = v)
    /\ (data !! "wa_phone_number" = None ->
        m_phone_number u = Some "unknown" /\ m_phone_number a = Some "unknown").
Proof.
  intros Hok.
  exists (user_row st farmer_id data), (assistant_row st farmer_id data).
  split; [by apply save_conversation_ok|].
  unfold user_row, assistant_row, Py.get_default; simpl.
  split; [intros v ->|intros ->]; done.
Qed.

Lemma save_conversation_phone_witness :
  turn_data !! "phone" = Some (Some "555-0100")
  /\ m_phone_number
       <$> incoming_messages
             (committed (after (save_conversation 1 turn_data) green_store []))
     = [Some "unknown"; Some "unknown"].
Proof.
  split; [reflexivity|].
  destruct (save_conversation_phone 1 turn_data green_store []) as
    (u & a & Hrows & _ & Hdflt).
  - intros (i & e & _ & Hfs). simpl in Hfs. discriminate.
  - rewrite Hrows. destruct Hdflt as [Hu Ha]; [reflexivity|].
    cbn. rewrite Hu, Ha. reflexivity.
Defined.

(** ** Rows behind the results *)

Lemma limit_rows_elem {A} (limit : Z) (rows out : list A) x :
  limit_rows limit rows = Return out -> x ∈ out -> x ∈ rows.
Proof.
  unfold limit_rows. destruct (limit_in_range limit); [|discriminate].
  intros [= <-] Hx. by eapply subseteq_take.
Qed.

Lemma get_recent_conversations_inv farmer_id limit st fs ts t :
  call (get_recent_conversations farmer_id limit) st fs = Return ts ->
  t ∈ ts ->
  exists m, m ∈ incoming_messages st /\ m_farmer_id m = farmer_id
            /\ t = turn_of m.
Proof.
  intros Hcall Ht. unfold get_recent_conversations in Hcall.
  apply (call_single_inv _ _ (fmap turn_of)) in Hcall; [|done].
  destruct Hcall as [->|(rows & Hq & ->)]; [by apply elem_of_nil in Ht|].
  apply list_elem_of_fmap in Ht as (m & -> & Hm).
  eapply limit_rows_elem in Hm; [|exact Hq].
  rewrite merge_sort_Permutation in Hm.
  apply list_elem_of_filter in Hm as [Hf Hm]. eauto.
Qed.

Lemma join_farmers_elem ms fs r :
  r ∈ join_farmers ms fs <->
  r.1 ∈ ms /\ r.2 ∈ fs /\ m_farmer_id r.1 = f_id r.2.
Proof.
  unfold join_farmers. rewrite list_elem_of_bind. split.
  - intros (m & Hr & Hm). apply list_elem_of_fmap in Hr as (f & -> & Hf).
    apply list_elem_of_filter in Hf as [Heq Hf]. done.
  - intros (Hm & Hf & Heq). exists r.1. split; [|done].
    apply list_elem_of_fmap. exists r.2. split; [by destruct r|].
    by apply list_elem_of_filter.
Qed.

Lemma get_conversation_details_inv conversation_id st fs d :
  call (get_conversation_details conversation_id) st fs = Return (Some d) ->
  exists m f, m ∈ incoming_messages st /\ f ∈ farmers st
              /\ m_farmer_id m = f_id f /\ m_id m = conversation_id
              /\ dv_id d = m_id m
              /\ dv_user_input d = slot "user" (m_role m) (m_message_text m)
              /\ dv_ava_response d
                 = slot "assistant" (m_role m) (m_message_text m).
Proof.
  intros Hcall. unfold get_conversation_details in Hcall.
  eapply (call_single_inv _ _
            (fun rows =>
               (fun result : message_row * farmer_row =>
                  {| dv_id := m_id result.1;
                     dv_farmer_id := m_farmer_id result.1;
                     dv_farmer_name :=
                       display_name (f_manager_name result.2)
                         (f_manager_last_name result.2);
                     dv_user_input :=
                       slot "user" (m_role result.1) (m_message_text result.1);
                     dv_ava_response :=
                       slot "assistant" (m_role result.1)
                         (m_message_text result.1);
                     dv_timestamp := m_timestamp result.1;
                     dv_approved_status := false |}) <$> head rows))
    in Hcall; [|intros rows w; by destruct (head rows)].
  destruct Hcall as [?|(rows & Hq & Hd)]; [done|].
  injection Hq as <-.
  destruct (head _) as [[m f]|] eqn:Hhd; [|done].
  injection Hd as ->. apply head_Some_elem_of in Hhd.
  apply list_elem_of_filter in Hhd as [Hid Hin].
  apply join_farmers_elem in Hin as (Hm & Hf & Heq).
  exists m, f. simpl in *. done.
Qed.

Lemma get_recent_conversations_call farmer_id limit st fs :
  call (get_recent_conversations farmer_id limit) st fs
  = match first_fault fs with
    | Some _ => Return []
    | None =>
        if limit_in_range limit
        then Return (turn_of
                       <$> take (Z.to_nat limit)
                             (merge_sort by_timestamp_desc
                                (farmer_messages st farmer_id)))
        else Return []
    end.
Proof.
  destruct fs as [|[e|] fs]; [|reflexivity|];
    (unfold get_recent_conversations;
     rewrite (call_single_ok _ _ (fmap turn_of)) by done;
     unfold sql_recent_messages, limit_rows, farmer_messages; simpl;
     by destruct (limit_in_range limit)).
Qed.

Lemma get_conversation_details_call conversation_id st fs :
  call (get_conversation_details conversation_id) st fs
  = match first_fault fs with
    | Some _ => Return None
    | None =>
        Return (detail_view_of
                  <$> head (filter (fun r => m_id r.1 = conversation_id)
                              (join_farmers (incoming_messages st)
                                 (farmers st))))
    end.
Proof.
  destruct fs as [|[e|] fs]; [|reflexivity|];
    (unfold get_conversation_details;
     rewrite (call_single_ok _ _ (fun rows => detail_view_of <$> head rows));
     first [reflexivity | intros rows w; by destruct (head rows)]).
Qed.

Lemma head_filter_some {A} (P : A -> Prop) `{forall x, Decision (P x)}
    (l : list A) x :
  x ∈ l -> P x -> exists y, head (filter P l) = Some y /\ P y /\ y ∈ l.
Proof.
  intros Hx HP.
  assert (Hin : x ∈ filter P l) by by apply list_elem_of_filter.
  destruct (filter P l) as [|y k] eqn:Hf; [by apply elem_of_nil in Hin|].
  exists y. split; [done|].
  assert (Hy : y ∈ filter P l) by (rewrite Hf; left).
  by apply list_elem_of_filter in Hy.
Qed.

Lemma slot_user role text :
  role = Some "user" ->
  slot "user" role text = text /\ slot "assistant" role text = Some "".
Proof. intros ->. by split. Qed.

Lemma slot_assistant role text :
  role = Some "assistant" ->
  slot "assistant" role text = text /\ slot "user" role text = Some "".
Proof. intros ->. by split. Qed.

(** A role outside the two tags of the data model leaves both slots empty. *)
Lemma slot_other_role role text :
  role <> Some "user" -> role <> Some "assistant" ->
  slot "user" role text = Some "" /\ slot "assistant" role text = Some "".
Proof. intros Hu Ha. unfold slot. by rewrite !decide_False. Qed.

(** C6 as stated fails: a stored message whose role is neither user nor
    assistant is returned with both slots empty, its text in neither. *)
Lemma both_slots_empty_for_other_role :
  exists ts t m,
    call (get_recent_conversations 1 10) notes_store [] = Return ts
    /\ t ∈ ts /\ m ∈ incoming_messages notes_store /\ tn_id t = m_id m
    /\ m_message_text m = Some "Call back on Monday"
    /\ tn_user_input t = Some "" /\ tn_ava_response t = Some "".
Proof.
  exists [turn_of system_note], (turn_of system_note), system_note.
  split_and!; try reflexivity; left.
Qed.

(** C6, as the code has it.  Every turn [get_recent_conversations] returns
    comes from a message of that farmer, and the record
    [get_conversation_details] returns comes from the message with the
    requested id.  In both, a message whose role is user has its text in
    user_input and the empty string in ava_response; a message whose role is
    assistant has its text in ava_response and the empty string in
    user_input; a message with any other role has the empty string in both.
    Such results are returned: when the store answers,
    [get_conversation_details] on the id of a message that has a farmers row
    returns a record with that id, and [get_recent_conversations] with a
    limit that covers the message table returns a turn for every message of
    the farmer. *)
Theorem slots_follow_role (st : Store) (fs : list (option exn)) :
  (forall farmer_id limit ts t,
      call (get_recent_conversations farmer_id limit) st fs = Return ts ->
      t ∈ ts ->
      exists m,
        m ∈ incoming_messages st /\ m_farmer_id m = farmer_id
        /\ tn_id t = m_id m
        /\ (m_role m = Some "user" ->
            tn_user_input t = m_message_text m /\ tn_ava_response t = Some "")
        /\ (m_role m = Some "assistant" ->
            tn_ava_response t = m_message_text m /\ tn_user_input t = Some "")
        /\ (m_role m <> Some "user" -> m_role m <> Some "assistant" ->
            tn_user_input t = Some "" /\ tn_ava_response t = Some ""))
  /\ (forall conversation_id d,
         call (get_conversation_details conversation_id) st fs
         = Return (Some d) ->
         exists m,
           m ∈ incoming_messages st /\ m_id m = conversation_id
           /\ dv_id d = m_id m
           /\ (m_role m = Some "user" ->
               dv_user_input d = m_message_text m
               /\ dv_ava_response d = Some "")
           /\ (m_role m = Some "assistant" ->
               dv_ava_response d = m_message_text m
               /\ dv_user_input d = Some "")
           /\ (m_role m <> Some "user" -> m_role m <> Some "assistant" ->
               dv_user_input d = Some "" /\ dv_ava_response d = Some ""))
  /\ (first_fault fs = None ->
      forall m f,
        m ∈ incoming_messages st -> f ∈ farmers st ->
        m_farmer_id m = f_id f ->
        exists d,
          call (get_conversation_details (m_id m)) st fs = Return (Some d)
          /\ dv_id d = m_id m)
  /\ (first_fault fs = None ->
      forall limit m,
        Z.of_nat (length (incoming_messages st)) <= limit
        <= 9223372036854775807 ->
        m ∈ incoming_messages st ->
        exists ts,
          call (get_recent_conversations (m_farmer_id m) limit) st fs
          = Return ts
          /\ turn_of m ∈ ts).
Proof.
  split_and!.
  - intros farmer_id limit ts t Hcall Ht.
    destruct (get_recent_conversations_inv _ _ _ _ _ _ Hcall Ht)
      as (m & Hm & Hf & ->).
    exists m. repeat split; try done; simpl;
      first [by apply slot_user | by apply slot_assistant
            | by apply slot_other_role].
  - intros conversation_id d Hcall.
    destruct (get_conversation_details_inv _ _ _ _ Hcall)
      as (m & f & Hm & _ & _ & Hid & Hd & Hu & Ha).
    exists m. rewrite Hu, Ha. repeat split; try done;
      first [by apply slot_user | by apply slot_assistant
            | by apply slot_other_role].
  - intros Hfs m f Hm Hf Hjoin.
    rewrite get_conversation_details_call, Hfs.
    destruct (head_filter_some (fun r : message_row * farmer_row =>
                                  m_id r.1 = m_id m)
                (join_farmers (incoming_messages st) (farmers st)) (m, f))
      as (r & -> & Hrid & _); [by apply join_farmers_elem|done|].
    by exists (detail_view_of r).
  - intros Hfs limit m Hlimit Hm.
    rewrite get_recent_conversations_call, Hfs.
    rewrite limit_in_range_true by lia.
    eexists. split; [done|].
    apply list_elem_of_fmap_2.
    assert (Hmine : m ∈ farmer_messages st (m_farmer_id m))
      by by apply list_elem_of_filter.
    rewrite take_ge; [by rewrite merge_sort_Permutation|].
    rewrite merge_sort_Permutation. unfold farmer_messages.
    pose proof (length_filter (fun x => m_farmer_id x = m_farmer_id m)
                  (incoming_messages st)).
    lia.
Qed.

Lemma slots_follow_role_witness :
  (exists m,
      m ∈ incoming_messages sample_store /\ m_farmer_id m = 1
      /\ tn_id (turn_of first_answer) = m_id m
      /\ (m_role m = Some "user" ->
          tn_user_input (turn_of first_answer) = m_message_text m
          /\ tn_ava_response (turn_of first_answer) = Some "")
      /\ (m_role m = Some "assistant" ->
          tn_ava_response (turn_of first_answer) = m_message_text m
          /\ tn_user_input (turn_of first_answer) = Some "")
      /\ (m_role m <> Some "user" -> m_role m <> Some "assistant" ->
          tn_user_input (turn_of first_answer) = Some ""
          /\ tn_ava_response (turn_of first_answer) = Some ""))
  /\ (exists m,
        m ∈ incoming_messages sample_store /\ m_id m = 2
        /\ dv_id (detail_view_of (first_answer, green_acres)) = m_id m
        /\ (m_role m = Some "user" ->
            dv_user_input (detail_view_of (first_answer, green_acres))
            = m_message_text m
            /\ dv_ava_response (detail_view_of (first_answer, green_acres))
               = Some "")
        /\ (m_role m = Some "assistant" ->
            dv_ava_response (detail_view_of (first_answer, green_acres))
            = m_message_text m
            /\ dv_user_input (detail_view_of (first_answer, green_acres))
               = Some "")
        /\ (m_role m <> Some "user" -> m_role m <> Some "assistant" ->
            dv_user_input (detail_view_of (first_answer, green_acres))
            = Some ""
            /\ dv_ava_response (detail_view_of (first_answer, green_acres))
               = Some ""))
  /\ (exists d,
        call (get_conversation_details (m_id long_question)) sample_store []
        = Return (Some d)
        /\ dv_id d = m_id long_question)
  /\ (exists ts,
        call (get_recent_conversations (m_farmer_id empty_question) 10)
          sample_store [] = Return ts
        /\ turn_of empty_question ∈ ts).
Proof.
  split_and!.
  - apply (proj1 (slots_follow_role sample_store []) 1 10
             (turn_of <$> [long_question; first_question; first_answer])).
    + vm_compute. reflexivity.
    + right. right. left.
  - apply (proj1 (proj2 (slots_follow_role sample_store [])) 2).
    vm_compute. reflexivity.
  - apply (proj1 (proj2 (proj2 (slots_follow_role sample_store [])))
             eq_refl long_question green_acres).
    + right. right. left.
    + left.
    + reflexivity.
  - apply (proj2 (proj2 (proj2 (slots_follow_role sample_store [])))
             eq_refl 10 empty_question).
    + simpl. lia.
    + right. right. right. left.
Defined.

(** ** The approval queue *)

Lemma distinct_on_farmer_subseteq prev rows r :
  r ∈ distinct_on_farmer prev rows -> r ∈ rows.
Proof.
  revert prev. induction rows as [|x rows IH]; intros prev; simpl; [done|].
  case_decide.
  - intros Hr. right. by eapply IH.
  - intros [->|Hr]%elem_of_cons; [left|right; by eapply IH].
Qed.

(** Every farmer id of the input survives, unless it is the id just seen. *)
Lemma distinct_on_farmer_covers prev rows r :
  r ∈ rows ->
  prev = Some (m_farmer_id r.1)
  \/ exists r', r' ∈ distinct_on_farmer prev rows
                /\ m_farmer_id r'.1 = m_farmer_id r.1.
Proof.
  revert prev. induction rows as [|x rows IH]; intros prev Hr;
    [by apply elem_of_nil in Hr|].
  simpl. apply elem_of_cons in Hr as [->|Hr].
  - case_decide; [by left|]. right. exists x. split; [left|done].
  - case_decide.
    + destruct (IH prev Hr) as [?|(r' & ? & ?)]; [by left|right; eauto].
    + right. destruct (IH (Some (m_farmer_id x.1)) Hr) as [Hp|(r' & ? & ?)].
      * exists x. split; [left|congruence].
      * exists r'. split; [by right|done].
Qed.

Lemma by_farmer_then_latest_le a b :
  by_farmer_then_latest a b -> m_farmer_id a.1 <= m_farmer_id b.1.
Proof. unfold by_farmer_then_latest. lia. Qed.

(** On rows ordered by farmer id, the rows kept have strictly increasing
    farmer ids, all beyond the id just seen. *)
Lemma distinct_on_farmer_increasing prev rows :
  StronglySorted by_farmer_then_latest rows ->
  Forall (fun r => above prev (m_farmer_id r.1)) rows ->
  Forall (fun r => strictly_above prev (m_farmer_id r.1))
    (distinct_on_farmer prev rows)
  /\ StronglySorted (fun a b => m_farmer_id a.1 < m_farmer_id b.1)
       (distinct_on_farmer prev rows).
Proof.
  intros Hs. revert prev.
  induction Hs as [|x rows Hs IH Hx]; intros prev Hab; simpl;
    [split; constructor|].
  apply Forall_cons in Hab as [Hx_ab Hab].
  case_decide as Hprev.
  - by apply IH.
  - destruct (IH (Some (m_farmer_id x.1))) as [Hlt Hsorted].
    { eapply Forall_impl; [exact Hx|]. intros r.
      apply by_farmer_then_latest_le. }
    split.
    + constructor.
      * destruct prev as [p|]; simpl in *; [|done].
        assert (p <> m_farmer_id x.1) by congruence. lia.
      * eapply Forall_impl; [exact Hlt|]. intros r. simpl.
        destruct prev as [p|]; simpl in *; [lia|done].
    + constructor; [done|]. exact Hlt.
Qed.

(** On rows ordered by farmer id and then by timestamp, newest first, a row
    that is kept is at least as recent as every row of the same farmer. *)
Lemma distinct_on_farmer_latest prev rows r' r :
  StronglySorted by_farmer_then_latest rows ->
  Forall (fun r => above prev (m_farmer_id r.1)) rows ->
  r' ∈ distinct_on_farmer prev rows -> r ∈ rows ->
  m_farmer_id r.1 = m_farmer_id r'.1 ->
  m_timestamp r.1 <= m_timestamp r'.1.
Proof.
  intros Hs. revert prev.
  induction Hs as [|x rows Hs IH Hx]; intros prev Hab Hr' Hr Heq;
    [by apply elem_of_nil in Hr|].
  pose proof (distinct_on_farmer_increasing prev (x :: rows)
                ltac:(by constructor) Hab) as [Hlt _].
  rewrite Forall_forall in Hlt. specialize (Hlt r' Hr').
  apply Forall_cons in Hab as [Hx_ab Hab].
  assert (Hrest : Forall (fun r => above (Some (m_farmer_id x.1))
                                     (m_farmer_id r.1)) rows).
  { eapply Forall_impl; [exact Hx|]. intros ?.
    apply by_farmer_then_latest_le. }
  simpl in Hr'. case_decide as Hprev.
  - apply elem_of_cons in Hr as [->|Hr]; [|exact (IH prev Hab Hr' Hr Heq)].
    subst prev. simpl in Hlt. lia.
  - apply elem_of_cons in Hr' as [->|Hr'].
    + apply elem_of_cons in Hr as [->|Hr]; [lia|].
      rewrite Forall_forall in Hx. specialize (Hx r Hr).
      unfold by_farmer_then_latest in Hx. lia.
    + apply elem_of_cons in Hr as [->|Hr]; [|exact (IH _ Hrest Hr' Hr Heq)].
      destruct (distinct_on_farmer_increasing (Some (m_farmer_id x.1)) rows
                  Hs Hrest) as [Hlt' _].
      rewrite Forall_forall in Hlt'. specialize (Hlt' r' Hr').
      simpl in Hlt'. lia.
Qed.

#[global] Instance by_farmer_then_latest_trans : Transitive by_farmer_then_latest.
Proof. intros a b c. unfold by_farmer_then_latest. lia. Qed.

#[global] Instance by_farmer_then_latest_total : Total by_farmer_then_latest.
Proof. intros a b. unfold by_farmer_then_latest. lia. Qed.

#[global] Instance by_latest_trans : Transitive by_latest.
Proof. intros a b c. unfold by_latest. lia. Qed.

#[global] Instance by_latest_total : Total by_latest.
Proof. intros a b. unfold by_latest. lia. Qed.

Lemma strictly_increasing_NoDup (rows : list (message_row * farmer_row)) :
  StronglySorted (fun a b => m_farmer_id a.1 < m_farmer_id b.1) rows ->
  NoDup ((fun r => m_farmer_id r.1) <$> rows).
Proof.
  induction 1 as [|x rows Hs IH Hx]; [constructor|].
  rewrite fmap_cons. constructor; [|done].
  intros (r & Heq & Hr)%list_elem_of_fmap.
  rewrite Forall_forall in Hx. specialize (Hx r Hr). simpl in *. lia.
Qed.

Lemma latest_messages_elem st r :
  r ∈ latest_messages st ->
  r.1 ∈ incoming_messages st /\ r.2 ∈ farmers st
  /\ m_farmer_id r.1 = f_id r.2 /\ m_role r.1 = Some "user".
Proof.
  intros Hr. apply distinct_on_farmer_subseteq in Hr.
  rewrite merge_sort_Permutation in Hr.
  apply list_elem_of_filter in Hr as [Hrole Hr].
  apply join_farmers_elem in Hr as (? & ? & ?). done.
Qed.

Lemma latest_messages_NoDup st :
  NoDup ((fun r => m_farmer_id r.1) <$> latest_messages st).
Proof.
  apply strictly_increasing_NoDup.
  apply distinct_on_farmer_increasing.
  - apply StronglySorted_merge_sort; apply _.
  - apply Forall_forall. by intros.
Qed.

Lemma latest_messages_latest st r' m :
  r' ∈ latest_messages st ->
  m ∈ incoming_messages st -> m_role m = Some "user" ->
  m_farmer_id m = m_farmer_id r'.1 ->
  m_timestamp m <= m_timestamp r'.1.
Proof.
  intros Hr' Hm Hrole Heq.
  destruct (latest_messages_elem _ _ Hr') as (_ & Hf & Hjoin & _).
  apply (distinct_on_farmer_latest None
           (merge_sort by_farmer_then_latest
              (filter (fun r => m_role r.1 = Some "user")
                 (join_farmers (incoming_messages st) (farmers st))))
           r' (m, r'.2)).
  - apply StronglySorted_merge_sort; apply _.
  - apply Forall_forall. by intros.
  - exact Hr'.
  - rewrite merge_sort_Permutation. apply list_elem_of_filter.
    split; [done|]. apply join_farmers_elem. simpl. split_and!; [done..|].
    congruence.
  - done.
Qed.

Lemma latest_messages_covers st m f :
  m ∈ incoming_messages st -> m_role m = Some "user" ->
  f ∈ farmers st -> m_farmer_id m = f_id f ->
  exists r', r' ∈ latest_messages st /\ m_farmer_id r'.1 = m_farmer_id m.
Proof.
  intros Hm Hrole Hf Heq.
  destruct (distinct_on_farmer_covers None
              (merge_sort by_farmer_then_latest
                 (filter (fun r => m_role r.1 = Some "user")
                    (join_farmers (incoming_messages st) (farmers st))))
              (m, f)) as [?|Hex]; [|done|exact Hex].
  rewrite merge_sort_Permutation. apply list_elem_of_filter.
  split; [done|]. by apply join_farmers_elem.
Qed.

Lemma latest_messages_length st :
  (length (latest_messages st) <= length (user_farmer_ids st))%nat.
Proof.
  rewrite <- (length_fmap (fun r : message_row * farmer_row => m_farmer_id r.1)).
  apply submseteq_length, NoDup_submseteq; [apply latest_messages_NoDup|].
  intros i (r & -> & Hr)%list_elem_of_fmap.
  destruct (latest_messages_elem _ _ Hr) as (Hm & _ & _ & Hrole).
  apply elem_of_remove_dups, list_elem_of_fmap. exists r.1.
  split; [done|]. by apply list_elem_of_filter.
Qed.

Lemma get_conversations_for_approval_inv st fs q :
  call get_conversations_for_approval st fs = Return q ->
  approved q = []
  /\ (unapproved q = []
      \/ unapproved q
         = approval_entry_of
             <$> take 100 (merge_sort by_latest (latest_messages st))).
Proof.
  intros Hcall. unfold get_conversations_for_approval in Hcall.
  apply (call_single_inv _ _
           (fun results => {| unapproved := approval_entry_of <$> results;
                              approved := [] |})) in Hcall; [|done].
  destruct Hcall as [->|(rows & [= <-] & ->)]; simpl; auto.
Qed.

Lemma get_conversations_for_approval_ok st fs :
  first_fault fs = None ->
  call get_conversations_for_approval st fs
  = Return {| unapproved :=
                approval_entry_of
                  <$> take 100 (merge_sort by_latest (latest_messages st));
              approved := [] |}.
Proof.
  intros Hfs. unfold get_conversations_for_approval.
  by rewrite (call_single_ok _ _
                (fun results => {| unapproved := approval_entry_of <$> results;
                                   approved := [] |})).
Qed.

Lemma approval_rows_elem st r :
  r ∈ take 100 (merge_sort by_latest (latest_messages st)) ->
  r ∈ latest_messages st.
Proof.
  intros Hr. apply subseteq_take in Hr.
  by rewrite merge_sort_Permutation in Hr.
Qed.

(** C2, as the code has it.  No two entries of the unapproved list carry the
    same farmer id, and there are at most 100 entries.  Every entry is built
    from a user message of a farmer of the farmers table, and no user message
    of that farmer is more recent.  When the store answers and at most 100
    farmer ids have a user message, every farmer with a user message has an
    entry (exactly one, as no id repeats).  In general, when the store
    answers, a farmer with a user message either has an entry or was cut off
    by the limit: then the queue holds 100 entries and each of them is at
    least as recent as every user message of that farmer. *)
Theorem approval_queue_latest_per_farmer (st : Store)
    (fs : list (option exn)) (q : approval_queue) :
  call get_conversations_for_approval st fs = Return q ->
  NoDup (ae_farmer_id <$> unapproved q)
  /\ (length (unapproved q) <= 100)%nat
  /\ (forall e, e ∈ unapproved q ->
        exists m f,
          m ∈ incoming_messages st /\ f ∈ farmers st
          /\ m_role m = Some "user" /\ m_farmer_id m = f_id f
          /\ ae_farmer_id e = f_id f /\ ae_id e = m_id m
          /\ ae_timestamp e = m_timestamp m
          /\ (forall m', m' ∈ incoming_messages st ->
                m_role m' = Some "user" -> m_farmer_id m' = ae_farmer_id e ->
                m_timestamp m' <= ae_timestamp e))
  /\ (first_fault fs = None ->
      (length (user_farmer_ids st) <= 100)%nat ->
      forall m f,
        m ∈ incoming_messages st -> m_role m = Some "user" ->
        f ∈ farmers st -> m_farmer_id m = f_id f ->
        exists e, e ∈ unapproved q /\ ae_farmer_id e = f_id f)
  /\ (first_fault fs = None ->
      forall m f,
        m ∈ incoming_messages st -> m_role m = Some "user" ->
        f ∈ farmers st -> m_farmer_id m = f_id f ->
        (exists e, e ∈ unapproved q /\ ae_farmer_id e = f_id f)
        \/ (length (unapproved q) = 100%nat
            /\ forall e, e ∈ unapproved q -> m_timestamp m <= ae_timestamp e)).
Proof.
  intros Hcall.
  pose proof (get_conversations_for_approval_inv _ _ _ Hcall) as [_ Hq].
  split_and!; cycle 4.
  { intros Hfs m f Hm Hrole Hf Hjoin.
    rewrite get_conversations_for_approval_ok in Hcall by done.
    injection Hcall as <-. cbn [unapproved].
    destruct (latest_messages_covers st m f) as (r' & Hr' & Heq); [done..|].
    pose proof (StronglySorted_merge_sort by_latest (latest_messages st)) as Hs.
    pose proof Hr' as Hr0.
    rewrite <- (merge_sort_Permutation by_latest) in Hr'.
    set (s := merge_sort by_latest (latest_messages st)) in *.
    rewrite <- (take_drop 100 s) in Hr', Hs.
    apply elem_of_app in Hr' as [Hin|Hcut].
    - left. exists (approval_entry_of r'). split; [|simpl; congruence].
      by apply list_elem_of_fmap_2.
    - right. split.
      + rewrite length_fmap, length_take.
        destruct (decide (length s <= 100)%nat) as [Hle|]; [|lia].
        rewrite drop_ge in Hcut by done. by apply elem_of_nil in Hcut.
      + intros e (x & -> & Hx)%list_elem_of_fmap. simpl.
        pose proof (StronglySorted_app_1_elem_of _ _ _ _ _ Hs Hx Hcut) as Hxr.
        assert (m_timestamp m <= m_timestamp r'.1).
        { apply (latest_messages_latest st r' m); [done..|congruence]. }
        unfold by_latest in Hxr. lia. }
  - destruct Hq as [->| ->]; [constructor|].
    rewrite <- list_fmap_compose.
    change (ae_farmer_id ∘ approval_entry_of)
      with (fun r : message_row * farmer_row => m_farmer_id r.1).
    rewrite fmap_take.
    eapply sublist_NoDup; [|apply sublist_take].
    rewrite merge_sort_Permutation. apply latest_messages_NoDup.
  - destruct Hq as [->| ->]; simpl; [lia|].
    rewrite length_fmap, length_take. lia.
  - intros e He. destruct Hq as [Hq|Hq]; rewrite Hq in He;
      [by apply elem_of_nil in He|].
    apply list_elem_of_fmap in He as (r & -> & Hr).
    apply approval_rows_elem in Hr.
    destruct (latest_messages_elem _ _ Hr) as (Hm & Hf & Hjoin & Hrole).
    exists r.1, r.2. split_and!; try done.
    intros m' Hm' Hrole' Heq. simpl in *.
    by apply (latest_messages_latest st r).
  - intros Hfs Hfew m f Hm Hrole Hf Hjoin.
    rewrite get_conversations_for_approval_ok in Hcall by done.
    injection Hcall as <-. simpl.
    destruct (latest_messages_covers st m f) as (r' & Hr' & Heq); [done..|].
    exists (approval_entry_of r'). split; [|simpl; congruence].
    apply list_elem_of_fmap. exists r'. split; [done|].
    rewrite take_ge.
    + by rewrite merge_sort_Permutation.
    + rewrite merge_sort_Permutation.
      pose proof (latest_messages_length st). lia.
Qed.

Lemma approval_queue_latest_per_farmer_witness :
  NoDup (ae_farmer_id
           <$> (approval_entry_of
                  <$> [(long_question, green_acres);
                       (empty_question, second_farmer)]))
  /\ (exists e,
        e ∈ approval_entry_of
              <$> [(long_question, green_acres); (empty_question, second_farmer)]
        /\ ae_farmer_id e = f_id second_farmer)
  /\ ((exists e,
         e ∈ approval_entry_of
               <$> take 100 (merge_sort by_latest (latest_messages crowd_store))
         /\ ae_farmer_id e = f_id (crowd_farmer 1))
      \/ (length (approval_entry_of
                    <$> take 100
                          (merge_sort by_latest (latest_messages crowd_store)))
          = 100%nat
          /\ forall e,
               e ∈ approval_entry_of
                     <$> take 100
                           (merge_sort by_latest (latest_messages crowd_store)) ->
               m_timestamp (crowd_message 1) <= ae_timestamp e)).
Proof.
  pose proof (proj2 (proj2 (proj2 (proj2
                (approval_queue_latest_per_farmer crowd_store [] _
                   (get_conversations_for_approval_ok crowd_store [] eq_refl)))))
                eq_refl (crowd_message 1) (crowd_farmer 1)) as Hcut.
  cbn [unapproved] in Hcut.
  pose proof (approval_queue_latest_per_farmer sample_store []
                {| unapproved :=
                     approval_entry_of
                       <$> [(long_question, green_acres);
                            (empty_question, second_farmer)];
                   approved := [] |}) as H.
  destruct H as (Hnd & _ & _ & Hall & _); [vm_compute; reflexivity|].
  split; [exact Hnd|]. split.
  - apply (Hall eq_refl ltac:(vm_compute; lia) empty_question second_farmer).
    + right. right. right. left.
    + reflexivity.
    + right. left.
    + reflexivity.
  - apply Hcut.
    + apply list_elem_of_fmap. exists 1. split; [done|].
      apply elem_of_seqZ. lia.
    + reflexivity.
    + apply list_elem_of_fmap. exists 1. split; [done|].
      apply elem_of_seqZ. lia.
    + reflexivity.
Defined.

(** C2 as stated fails: with 101 farmers who each wrote one user message,
    the queue holds 100 entries and the farmer who wrote first has none. *)
Lemma approval_queue_omits_a_farmer :
  exists q,
    call get_conversations_for_approval crowd_store [] = Return q
    /\ crowd_farmer 1 ∈ farmers crowd_store
    /\ crowd_message 1 ∈ incoming_messages crowd_store
    /\ m_role (crowd_message 1) = Some "user"
    /\ m_farmer_id (crowd_message 1) = f_id (crowd_farmer 1)
    /\ length (unapproved q) = 100%nat
    /\ ~ exists e, e ∈ unapproved q /\ ae_farmer_id e = f_id (crowd_farmer 1).
Proof.
  eexists. split; [by apply get_conversations_for_approval_ok|].
  split_and!.
  - apply list_elem_of_fmap. exists 1. split; [done|].
    apply elem_of_seqZ. lia.
  - apply list_elem_of_fmap. exists 1. split; [done|].
    apply elem_of_seqZ. lia.
  - reflexivity.
  - reflexivity.
  - vm_compute. reflexivity.
  - intros (e & He & Hid). cbn [unapproved] in He.
    apply list_elem_of_fmap in He as (r & -> & Hr).
    assert (Hall : Forall (fun r : message_row * farmer_row =>
                             m_farmer_id r.1 <> 1)
                     (take 100 (merge_sort by_latest
                                  (latest_messages crowd_store)))).
    { apply (bool_decide_unpack _). vm_compute. exact I. }
    rewrite Forall_forall in Hall. by apply (Hall r Hr).
Qed.

(** ** Truncation of the last message *)

Lemma string_length_app (a b : string) :
  String.length (a +:+ b) = (String.length a + String.length b)%nat.
Proof. induction a as [|c a IH]; simpl; [done|]. by rewrite IH. Qed.

Lemma length_slice_to n s :
  String.length (Py.slice_to n s) = Nat.min n (String.length s).
Proof.
  revert s. induction n as [|n IH]; intros [|c s]; simpl; try done.
  by rewrite IH.
Qed.

Lemma last_message_long s :
  (100 < String.length s)%nat ->
  last_message (Some s) = Py.slice_to 100 s +:+ "...".
Proof.
  intros Hlen. unfold last_message.
  destruct s as [|c s]; [simpl in Hlen; lia|].
  replace (100 <? Z.of_nat (String.length (String c s))) with true; [done|].
  symmetry. apply Z.ltb_lt. lia.
Qed.

Lemma last_message_short s :
  (String.length s <= 100)%nat -> last_message (Some s) = s.
Proof.
  intros Hlen. unfold last_message.
  replace (100 <? Z.of_nat (String.length s)) with false.
  - rewrite andb_false_r. by destruct s.
  - symmetry. apply Z.ltb_ge. lia.
Qed.

(** C5. Every entry of the approval queue is built from a stored message.
    When the text of that message is longer than 100 characters the entry's
    last_message is its first 100 characters followed by "...", at most 103
    characters in all; when the text is not longer than 100 characters,
    last_message is the text itself.  (A message without text gives the
    empty string.) *)
Theorem approval_queue_last_message (st : Store) (fs : list (option exn))
    (q : approval_queue) (e : approval_entry) :
  call get_conversations_for_approval st fs = Return q ->
  e ∈ unapproved q ->
  exists m,
    m ∈ incoming_messages st /\ ae_id e = m_id m
    /\ (forall s,
           m_message_text m = Some s -> (100 < String.length s)%nat ->
           ae_last_message e = Py.slice_to 100 s +:+ "..."
           /\ String.length (Py.slice_to 100 s) = 100%nat
           /\ (String.length (ae_last_message e) <= 103)%nat)
    /\ (forall s,
           m_message_text m = Some s -> (String.length s <= 100)%nat ->
           ae_last_message e = s)
    /\ (m_message_text m = None -> ae_last_message e = "").
Proof.
  intros Hcall He.
  pose proof (get_conversations_for_approval_inv _ _ _ Hcall) as [_ Hq].
  destruct Hq as [Hq|Hq]; rewrite Hq in He; [by apply elem_of_nil in He|].
  apply list_elem_of_fmap in He as (r & -> & Hr).
  apply approval_rows_elem, latest_messages_elem in Hr as (Hm & _).
  exists r.1. cbn [approval_entry_of ae_id ae_last_message].
  split_and!; [done..| | |].
  - intros s -> Hlen. rewrite last_message_long by done. split_and!.
    + done.
    + rewrite length_slice_to. lia.
    + rewrite string_length_app, length_slice_to.
      change (String.length "...") with 3%nat. lia.
  - intros s -> Hlen. by apply last_message_short.
  - by intros ->.
Qed.

Lemma approval_queue_last_message_witness :
  exists m,
    m ∈ incoming_messages sample_store
    /\ ae_id (approval_entry_of (long_question, green_acres)) = m_id m
    /\ (forall s,
           m_message_text m = Some s -> (100 < String.length s)%nat ->
           ae_last_message (approval_entry_of (long_question, green_acres))
           = Py.slice_to 100 s +:+ "..."
           /\ String.length (Py.slice_to 100 s) = 100%nat
           /\ (String.length
                 (ae_last_message
                    (approval_entry_of (long_question, green_acres)))
               <= 103)%nat)
    /\ (forall s,
           m_message_text m = Some s -> (String.length s <= 100)%nat ->
           ae_last_message (approval_entry_of (long_question, green_acres)) = s)
    /\ (m_message_text m = None ->
        ae_last_message (approval_entry_of (long_question, green_acres)) = "").
Proof.
  apply (approval_queue_last_message sample_store []
           {| unapproved :=
                approval_entry_of
                  <$> [(long_question, green_acres);
                       (empty_question, second_farmer)];
              approved := [] |}).
  - vm_compute. reflexivity.
  - left.
Defined.

(** ** get_farmer_fields *)

Lemma left_join_active_elem fs cs r :
  r ∈ left_join_active fs cs ->
  r.1 ∈ fs
  /\ match r.2 with
     | Some c => c ∈ cs /\ active_crop_of r.1 c
     | None => filter (active_crop_of r.1) cs = []
     end.
Proof.
  unfold left_join_active. intros (f & Hr & Hf)%list_elem_of_bind.
  destruct (filter (active_crop_of f) cs) as [|c0 matches] eqn:Hmatches.
  - apply list_elem_of_singleton in Hr as ->. by simpl.
  - apply list_elem_of_fmap in Hr as (c & -> & Hc). simpl. split; [done|].
    rewrite <- Hmatches in Hc. by apply list_elem_of_filter in Hc as [? ?].
Qed.

Lemma left_join_active_none fs cs f :
  f ∈ fs -> filter (active_crop_of f) cs = [] ->
  (f, None) ∈ left_join_active fs cs.
Proof.
  intros Hf Hnone. unfold left_join_active. apply list_elem_of_bind.
  exists f. split; [|done]. rewrite Hnone. left.
Qed.

Lemma get_farmer_fields_inv farmer_id st fs vs :
  call (get_farmer_fields farmer_id) st fs = Return vs ->
  vs = []
  \/ vs = field_view_of
            <$> merge_sort by_field_name
                  (filter (fun r => fd_farmer_id r.1 = farmer_id)
                     (left_join_active (fields st) (field_crops st))).
Proof.
  intros Hcall. unfold get_farmer_fields in Hcall.
  apply (call_single_inv _ _ (fmap field_view_of)) in Hcall; [|done].
  destruct Hcall as [->|(rows & [= <-] & ->)]; auto.
Qed.

Lemma get_farmer_fields_ok farmer_id st fs :
  first_fault fs = None ->
  call (get_farmer_fields farmer_id) st fs
  = Return (field_view_of
              <$> merge_sort by_field_name
                    (filter (fun r => fd_farmer_id r.1 = farmer_id)
                       (left_join_active (fields st) (field_crops st)))).
Proof.
  intros Hfs. unfold get_farmer_fields.
  by rewrite (call_single_ok _ _ (fmap field_view_of)).
Qed.

(** C7. Every record [get_farmer_fields] returns belongs to a field of the
    farmer.  When no crop row of that field has status active, the record's
    crop, variety and planting date are all [None]; when the field's stored
    size is NULL, the record's size is 0.  Such a field is no error: when
    the store answers, the result holds a record for it. *)
Theorem fields_without_active_planting (st : Store) (fs : list (option exn))
    (farmer_id : Z) (vs : list field_view) :
  call (get_farmer_fields farmer_id) st fs = Return vs ->
  (forall v, v ∈ vs ->
     exists f,
       f ∈ fields st /\ fd_farmer_id f = farmer_id
       /\ fv_field_id v = fd_field_id f
       /\ ((forall c, c ∈ field_crops st -> fc_field_id c = fd_field_id f ->
                      fc_status c <> Some "active") ->
           fv_current_crop v = None /\ fv_variety v = None
           /\ fv_planting_date v = None)
       /\ (fd_field_size f = None -> fv_field_size v = Py.PyInt 0))
  /\ (first_fault fs = None ->
      forall f,
        f ∈ fields st -> fd_farmer_id f = farmer_id ->
        (forall c, c ∈ field_crops st -> fc_field_id c = fd_field_id f ->
                   fc_status c <> Some "active") ->
        exists v,
          v ∈ vs /\ fv_field_id v = fd_field_id f
          /\ fv_current_crop v = None /\ fv_variety v = None
          /\ fv_planting_date v = None).
Proof.
  intros Hcall. split.
  - intros v Hv.
    destruct (get_farmer_fields_inv _ _ _ _ Hcall) as [->| ->];
      [by apply elem_of_nil in Hv|].
    apply list_elem_of_fmap in Hv as (r & -> & Hr).
    rewrite merge_sort_Permutation in Hr.
    apply list_elem_of_filter in Hr as [Hfarmer Hr].
    apply left_join_active_elem in Hr as [Hf Hcrop].
    exists r.1. split_and!; [done..| |].
    + intros Hnone. destruct r as [f [c|]]; simpl in *; [|done].
      destruct Hcrop as [Hc [Hid Hactive]].
      by destruct (Hnone c Hc).
    + simpl. by intros ->.
  - intros Hfs f Hf Hfarmer Hnone.
    rewrite get_farmer_fields_ok in Hcall by done. injection Hcall as <-.
    exists (field_view_of (f, None)). split; [|done].
    apply list_elem_of_fmap. exists (f, None). split; [done|].
    rewrite merge_sort_Permutation. apply list_elem_of_filter.
    split; [done|]. apply left_join_active_none; [done|].
    apply filter_none. intros c Hc [Hid Hactive]. by apply (Hnone c).
Qed.

Lemma fields_without_active_planting_witness :
  exists v,
    v ∈ field_view_of
          <$> [(north_field, None);
               (south_field,
                Some {| fc_field_id := 11; fc_crop_name := Some "maize";
                        fc_variety := Some "P9911";
                        fc_planting_date :=
                          Some {| Py.year := 2024; Py.month := 4;
                                  Py.day := 20 |};
                        fc_status := Some "active" |})]
    /\ fv_field_id v = fd_field_id north_field
    /\ fv_current_crop v = None /\ fv_variety v = None
    /\ fv_planting_date v = None.
Proof.
  apply (proj2 (fields_without_active_planting sample_store [] 1 _
                  ltac:(vm_compute; reflexivity)) eq_refl north_field).
  - right. left.
  - reflexivity.
  - intros c Hc Hid.
    apply elem_of_cons in Hc as [->|Hc]; [discriminate|].
    apply list_elem_of_singleton in Hc as ->. discriminate.
Defined.

(** ** get_all_farmers *)

Lemma lstrip_spec s :
  exists l, s = l +:+ Py.lstrip s /\ all_space l = true
            /\ starts_with_space (Py.lstrip s) = false.
Proof.
  induction s as [|c s (l & Hs & Hl & Hstart)]; [by exists ""|].
  simpl. destruct (Py.isspace c) eqn:Hc.
  - exists (String c l). split_and!; [|simpl; by rewrite Hc, Hl|done].
    change (String c l +:+ Py.lstrip s) with (String c (l +:+ Py.lstrip s)).
    by rewrite <- Hs.
  - exists "". split_and!; [done..|]. simpl. by rewrite Hc.
Qed.

Lemma rstrip_spec s :
  exists r, s = Py.rstrip s +:+ r /\ all_space r = true
            /\ ends_with_space (Py.rstrip s) = false
            /\ (starts_with_space s = false ->
                starts_with_space (Py.rstrip s) = false).
Proof.
  induction s as [|c s (r & Hs & Hr & Hend & _)]; [by exists ""|].
  simpl. destruct (Py.rstrip s) as [|d t] eqn:Hrs.
  - change ("" +:+ r) with r in Hs. subst r. destruct (Py.isspace c) eqn:Hc.
    + exists (String c s). split_and!; [done| |done..].
      simpl. by rewrite Hc, Hr.
    + exists s. split_and!; [done..| |done]. simpl. by rewrite Hc.
  - exists r. split_and!; [|done..].
    change (String c (String d t) +:+ r) with (String c (String d t +:+ r)).
    by rewrite <- Hs.
Qed.

Lemma strip_trimmed s : trimmed_of s (Py.strip s).
Proof.
  unfold Py.strip.
  destruct (lstrip_spec s) as (l & Hl & Hlsp & Hstart).
  destruct (rstrip_spec (Py.lstrip s)) as (r & Hr & Hrsp & Hend & Hkeep).
  split; [|auto]. exists l, r. split; [|done].
  by rewrite <- Hr.
Qed.

Lemma display_name_present a b :
  a <> "" -> b <> "" ->
  display_name (Some a) (Some b) = Py.strip (a +:+ " " +:+ b).
Proof. by destruct a, b. Qed.

Lemma display_name_missing a b :
  missing a \/ missing b -> display_name a b = "Unknown".
Proof.
  unfold display_name.
  intros [[-> | ->]|[-> | ->]]; simpl; rewrite ?andb_false_r; done.
Qed.

Lemma get_all_farmers_inv limit st fs out :
  call (get_all_farmers limit) st fs = Return out ->
  out = []
  \/ (0 <= limit
      /\ out = farmer_summary_of
                 <$> take (Z.to_nat limit)
                       (merge_sort by_farm_name (farmers st))).
Proof.
  intros Hcall. unfold get_all_farmers in Hcall.
  apply (call_single_inv _ _ (fmap farmer_summary_of)) in Hcall; [|done].
  destruct Hcall as [->|(rows & Hq & ->)]; [by left|].
  unfold sql_all_farmers, limit_rows in Hq.
  destruct (limit_in_range limit) eqn:Hlim; [|done]. injection Hq as <-.
  apply limit_in_range_spec in Hlim. right. split; [lia|done].
Qed.

(** C9. Every summary [get_all_farmers] returns is built from a farmers row.
    When both name parts are present its name is the manager name, a space
    and the last name, trimmed of surrounding whitespace; when either part
    is missing it is "Unknown".  Its phone is the phone column when that is
    present, else the wa_phone_number column when that is present, else
    the empty string. *)
Theorem farmer_summary_name_and_phone (st : Store) (fs : list (option exn))
    (limit : Z) (out : list farmer_summary) (s : farmer_summary) :
  call (get_all_farmers limit) st fs = Return out ->
  s ∈ out ->
  exists r,
    r ∈ farmers st /\ fs_id s = f_id r
    /\ (forall a b,
           f_manager_name r = Some a -> f_manager_last_name r = Some b ->
           a <> "" -> b <> "" ->
           fs_name s = Py.strip (a +:+ " " +:+ b)
           /\ trimmed_of (a +:+ " " +:+ b) (fs_name s))
    /\ (missing (f_manager_name r) \/ missing (f_manager_last_name r) ->
        fs_name s = "Unknown")
    /\ (forall p, f_phone r = Some p -> p <> "" -> fs_phone s = p)
    /\ (forall p,
           missing (f_phone r) -> f_wa_phone_number r = Some p -> p <> "" ->
           fs_phone s = p)
    /\ (missing (f_phone r) -> missing (f_wa_phone_number r) ->
        fs_phone s = "").
Proof.
  intros Hcall Hs.
  destruct (get_all_farmers_inv _ _ _ _ Hcall) as [->|[_ ->]];
    [by apply elem_of_nil in Hs|].
  apply list_elem_of_fmap in Hs as (r & -> & Hr).
  apply subseteq_take in Hr. rewrite merge_sort_Permutation in Hr.
  exists r. cbn [farmer_summary_of fs_id fs_name fs_phone].
  split_and!; [done..| | | | |].
  - intros a b -> -> Ha Hb. rewrite display_name_present by done.
    split; [done|apply strip_trimmed].
  - apply display_name_missing.
  - intros p -> Hp. by destruct p.
  - intros p [-> | ->] -> Hp; by destruct p.
  - by intros [-> | ->] [-> | ->].
Qed.

Lemma farmer_summary_name_and_phone_witness :
  exists r,
    r ∈ farmers sample_store
    /\ fs_id (farmer_summary_of zeta_farmer) = f_id r
    /\ (forall a b,
           f_manager_name r = Some a -> f_manager_last_name r = Some b ->
           a <> "" -> b <> "" ->
           fs_name (farmer_summary_of zeta_farmer)
           = Py.strip (a +:+ " " +:+ b)
           /\ trimmed_of (a +:+ " " +:+ b)
                (fs_name (farmer_summary_of zeta_farmer)))
    /\ (missing (f_manager_name r) \/ missing (f_manager_last_name r) ->
        fs_name (farmer_summary_of zeta_farmer) = "Unknown")
    /\ (forall p, f_phone r = Some p -> p <> "" ->
                  fs_phone (farmer_summary_of zeta_farmer) = p)
    /\ (forall p,
           missing (f_phone r) -> f_wa_phone_number r = Some p -> p <> "" ->
           fs_phone (farmer_summary_of zeta_farmer) = p)
    /\ (missing (f_phone r) -> missing (f_wa_phone_number r) ->
        fs_phone (farmer_summary_of zeta_farmer) = "").
Proof.
  apply (farmer_summary_name_and_phone sample_store [] 10
           (farmer_summary_of <$> [green_acres; zeta_farmer; second_farmer])).
  - vm_compute. reflexivity.
  - right. left.
Defined.

#[global] Instance by_farm_name_total : Total by_farm_name.
Proof.
  intros a b. unfold by_farm_name, text_le.
  destruct (f_farm_name a) as [x|], (f_farm_name b) as [y|]; auto.
  apply String.leb_total.
Qed.

Lemma Sorted_take {A} (R : relation A) (l : list A) n :
  Sorted R l -> Sorted R (take n l).
Proof.
  intros Hs. revert n. induction Hs as [|x l Hs IH Hx]; intros [|n]; simpl;
    try constructor; [apply IH|].
  destruct Hx as [|y l' Hxy]; [by rewrite take_nil|].
  destruct n; simpl; by constructor.
Qed.






(** ** Worked examples *)

Example sql_lower_example :
  sql_lower "Maize" = "maize" /\ sql_lower spelt_capital = spelt_small.
Proof. split; reflexivity. Qed.

Example strip_example : Py.strip "  Jane Doe " = "Jane Doe".
Proof. reflexivity. Qed.

Example display_name_example :
  display_name (Some " Zed") (Some "Zorn ") = "Zed Zorn"
  /\ display_name (Some "Ana") None = "Unknown".
Proof. split; reflexivity. Qed.

Example isoformat_example :
  Py.isoformat {| Py.year := 2024; Py.month := 4; Py.day := 20 |}
  = "2024-04-20".
Proof. reflexivity. Qed.

Example last_message_example :
  last_message (Some long_text)
  = "My maize leaves are turning yellow at the edges and some plants show purple stems after the cold nig..."
  /\ last_message (Some "hello") = "hello"
  /\ last_message None = "".
Proof. split_and!; reflexivity. Qed.

Example approval_queue_example :
  call get_conversations_for_approval sample_store []
  = Return {| unapproved :=
                approval_entry_of
                  <$> [(long_question, green_acres);
                       (empty_question, second_farmer)];
              approved := [] |}.
Proof. vm_compute. reflexivity. Qed.

Example get_all_farmers_example :
  fs_farm_name <$> (farmer_summary_of
                      <$> [green_acres; zeta_farmer; second_farmer])
  = ["Green Acres"; "Zeta Farm"; "Unknown Farm"]
  /\ call (get_all_farmers 10) sample_store []
     = Return (farmer_summary_of <$> [green_acres; zeta_farmer; second_farmer])
  /\ call (get_all_farmers (-1)) sample_store [] = Return [].
Proof. split_and!; vm_compute; reflexivity. Qed.

(** A saved pair shows up in the recent conversations of the farmer. *)
Example save_then_list_example :
  let w := after (save_conversation 1 turn_data) green_store [] in
  (fun t => (tn_user_input t, tn_ava_response t))
    <$> match call (get_recent_conversations 1 10) (committed w) [] with
        | Return ts => ts
        | Raise _ => []
        end
  = [(Some "When do I sow maize?", Some "");
     (Some "", Some "After the last frost.")].
Proof. vm_compute. reflexivity. Qed.

(** * Further properties of the layer *)

(** ** What the operations leave behind *)

Section single_statement_world.
Context {A B : Type} (q : Store -> outcome A) (k : A -> M B) (f : A -> B).
Hypothesis k_pure : forall a w, k a w = (Return (f a), w).

Lemma after_single sentinel st fs :
  committed
    (after (try_except (with_session (let! rows := execute q in k rows))
              sentinel) st fs) = st
  /\ pending
       (after (try_except (with_session (let! rows := execute q in k rows))
                 sentinel) st fs) = [].
Proof.
  unfold after, try_except, with_session, bind, execute, round_trip.
  destruct fs as [|[e|] fs]; simpl; try done;
    rewrite view_fresh; destruct (q st); simpl; rewrite ?k_pure; done.
Qed.
End single_statement_world.

Lemma after_lift {A B} (f : A -> B) (m : M A) st fs :
  after (lift f m) st fs = after m st fs.
Proof.
  unfold after, lift. by destruct (m (world st fs)) as [[a|e] w].
Qed.

Lemma health_check_ok st fs :
  first_fault fs = None -> call health_check st fs = Return true.
Proof.
  intros Hfs. unfold health_check.
  by rewrite (call_single_ok _ _ (fun _ => true)).
Qed.

(** X1. [health_check] answers [True] exactly when the round trip of its
    count statement does not fail, and [False] when it does; the contents of
    the store play no part (an empty farmers table is healthy). *)
Theorem health_check_iff_reachable (st : Store) (fs : list (option exn)) :
  (first_fault fs = None -> call health_check st fs = Return true)
  /\ (forall e, first_fault fs = Some e -> call health_check st fs = Return false)
  /\ (call health_check st fs = Return true <-> first_fault fs = None).
Proof.
  split_and!.
  - apply health_check_ok.
  - intros e He. destruct fs as [|[e'|] fs]; try discriminate. reflexivity.
  - split.
    + destruct fs as [|[e|] fs]; [done| |done]. discriminate.
    + apply health_check_ok.
Qed.

Lemma health_check_iff_reachable_witness :
  call health_check empty_store [None] = Return true
  /\ call health_check sample_store [Some TimeoutError] = Return false.
Proof.
  split.
  - apply (proj1 (health_check_iff_reachable empty_store [None])). reflexivity.
  - apply (proj1 (proj2 (health_check_iff_reachable sample_store
                           [Some TimeoutError])) TimeoutError).
    reflexivity.
Defined.

(** X2. The reading operations never change the store and never leave a
    transaction open: after any of them, failed or not, the committed store
    is the one they started from and no row is pending. *)
Theorem reads_leave_store_unchanged (op : operation) (st : Store)
    (fs : list (option exn)) :
  (forall farmer_id data, op <> SaveConversation farmer_id data) ->
  committed (after (perform op) st fs) = st
  /\ pending (after (perform op) st fs) = [].
Proof.
  intros Hread. destruct op; simpl; rewrite after_lift;
    try (by destruct (Hread farmer_id data)).
  - apply (after_single _ _ (fun rows => farmer_info_of <$> head rows)).
    intros rows w. by destruct (head rows).
  - by apply (after_single _ _ (fmap farmer_summary_of)).
  - by apply (after_single _ _ (fmap field_view_of)).
  - by apply (after_single _ _ (fmap turn_of)).
  - apply (after_single _ _
             (fun rows =>
                (fun result : option string =>
                   {| ci_id := 1;
                      ci_crop_name := Py.fmt result;
                      ci_croatian_name := Py.fmt result;
                      ci_category := "Crop";
                      ci_planting_season := "Spring";
                      ci_harvest_season := "Fall";
                      ci_description :=
                        "Information about " +:+ Py.fmt result |})
                  <$> head rows)).
    intros rows w. by destruct (head rows).
  - by apply (after_single _ _
                (fun results =>
                   {| unapproved := approval_entry_of <$> results;
                      approved := [] |})).
  - apply (after_single _ _
             (fun rows =>
                (fun result : message_row * farmer_row =>
                   {| dv_id := m_id result.1;
                      dv_farmer_id := m_farmer_id result.1;
                      dv_farmer_name :=
                        display_name (f_manager_name result.2)
                          (f_manager_last_name result.2);
                      dv_user_input :=
                        slot "user" (m_role result.1) (m_message_text result.1);
                      dv_ava_response :=
                        slot "assistant" (m_role result.1)
                          (m_message_text result.1);
                      dv_timestamp := m_timestamp result.1;
                      dv_approved_status := false |}) <$> head rows)).
    intros rows w. by destruct (head rows).
  - by apply (after_single _ _ (fun _ => true)).
Qed.

Lemma reads_leave_store_unchanged_witness :
  committed (after (perform (GetRecentConversations 1 10)) sample_store
               [Some OperationalError]) = sample_store
  /\ pending (after (perform (GetRecentConversations 1 10)) sample_store
                [Some OperationalError]) = [].
Proof.
  apply (reads_leave_store_unchanged (GetRecentConversations 1 10)).
  intros farmer_id data. discriminate.
Defined.

(** X3. [save_conversation] only ever appends to the message table.  On
    every path the farmers, fields, field_crops and crop_technology tables
    are untouched, the rows that were stored stay as a prefix of the message
    table, nothing is added but the pair of rows of this call, and the
    session ends with no row pending. *)
Theorem save_conversation_appends_only (farmer_id : Z)
    (data : gmap string (option string)) (st : Store)
    (fs : list (option exn)) :
  let w := after (save_conversation farmer_id data) st fs in
  farmers (committed w) = farmers st
  /\ fields (committed w) = fields st
  /\ field_crops (committed w) = field_crops st
  /\ crop_technology (committed w) = crop_technology st
  /\ pending w = []
  /\ (incoming_messages (committed w) = incoming_messages st
      \/ incoming_messages (committed w)
         = incoming_messages st
           ++ [user_row st farmer_id data; assistant_row st farmer_id data]).
Proof.
  intros w. subst w.
  destruct fs as [|[e1|] [|[e2|] [|[e3|] fs]]];
    (split_and!; [reflexivity..|]);
    first [left; reflexivity | right; reflexivity].
Qed.

(** ** get_recent_conversations *)

#[global] Instance by_timestamp_desc_trans : Transitive by_timestamp_desc.
Proof. intros a b c. unfold by_timestamp_desc. lia. Qed.

#[global] Instance by_timestamp_desc_total : Total by_timestamp_desc.
Proof. intros a b. unfold by_timestamp_desc. lia. Qed.



(** X4. The turns come newest first and there are at most [limit] of them.
    When the store answers and [limit] is a bigint that is not negative
    they are the [limit] most recent messages of the farmer: the farmer's
    messages split into the rows returned and the rest, and no row of the
    rest is more recent than a returned one.  With any other limit the
    statement is rejected and no turn is returned. *)
Theorem recent_conversations_are_the_newest (st : Store)
    (fs : list (option exn)) (farmer_id limit : Z) (ts : list turn) :
  call (get_recent_conversations farmer_id limit) st fs = Return ts ->
  Z.of_nat (length ts) <= Z.max 0 limit
  /\ Sorted newer_first ts
  /\ (first_fault fs = None -> 0 <= limit <= 9223372036854775807 ->
      exists rows rest,
        ts = turn_of <$> rows
        /\ rows ++ rest ≡ₚ farmer_messages st farmer_id
        /\ length rows
           = Nat.min (Z.to_nat limit) (length (farmer_messages st farmer_id))
        /\ forall x y, x ∈ rows -> y ∈ rest ->
                       m_timestamp y <= m_timestamp x)
  /\ (limit < 0 \/ 9223372036854775807 < limit -> ts = []).
Proof.
  rewrite get_recent_conversations_call. intros Hcall.
  pose proof (StronglySorted_merge_sort by_timestamp_desc
                (farmer_messages st farmer_id)) as Hs.
  destruct (first_fault fs) as [e|] eqn:Hfs.
  { injection Hcall as <-. split_and!; [simpl; lia|constructor|done..]. }
  destruct (limit_in_range limit) eqn:Hlim; cycle 1.
  { injection Hcall as <-. split_and!; [simpl; lia|constructor| |done].
    intros _ ?. apply limit_in_range_true in H. congruence. }
  injection Hcall as <-. apply limit_in_range_spec in Hlim. split_and!; cycle 3.
  { lia. }
  - rewrite length_fmap, length_take. lia.
  - apply (Sorted_fmap _ by_timestamp_desc); [done|].
    apply Sorted_take, StronglySorted_Sorted, Hs.
  - intros _ _.
    exists (take (Z.to_nat limit)
              (merge_sort by_timestamp_desc (farmer_messages st farmer_id))),
           (drop (Z.to_nat limit)
              (merge_sort by_timestamp_desc (farmer_messages st farmer_id))).
    split_and!.
    + done.
    + by rewrite take_drop, merge_sort_Permutation.
    + by rewrite length_take, merge_sort_Permutation.
    + intros x y Hx Hy.
      rewrite <- (take_drop (Z.to_nat limit)) in Hs.
      by apply (StronglySorted_app_1_elem_of _ _ _ _ _ Hs).
Qed.

Lemma recent_conversations_are_the_newest_witness :
  exists rows rest,
    turn_of <$> [long_question; first_question] = turn_of <$> rows
    /\ rows ++ rest ≡ₚ farmer_messages sample_store 1
    /\ length rows = Nat.min (Z.to_nat 2) (length (farmer_messages sample_store 1))
    /\ forall x y, x ∈ rows -> y ∈ rest -> m_timestamp y <= m_timestamp x.
Proof.
  apply (recent_conversations_are_the_newest sample_store [] 1 2).
  - vm_compute. reflexivity.
  - reflexivity.
  - lia.
Defined.

(** Beyond the bigint range the statement fails and nothing is listed. *)
Example recent_conversations_limit_out_of_range :
  call (get_recent_conversations 1 9223372036854775808) sample_store []
  = Return [].
Proof. reflexivity. Qed.

(** ** save_conversation, then reading *)

Lemma get_recent_conversations_ext farmer_id limit st st' fs :
  farmer_messages st' farmer_id = farmer_messages st farmer_id ->
  call (get_recent_conversations farmer_id limit) st' fs
  = call (get_recent_conversations farmer_id limit) st fs.
Proof. intros Heq. by rewrite !get_recent_conversations_call, Heq. Qed.



(** X6. Saving a conversation of one farmer changes nothing in what
    [get_recent_conversations] returns for any other farmer, whether the
    save succeeded or failed. *)
Theorem save_leaves_other_farmers_alone (farmer_id other : Z)
    (data : gmap string (option string)) (st : Store)
    (fs fs' : list (option exn)) (limit : Z) :
  other <> farmer_id ->
  call (get_recent_conversations other limit)
    (committed (after (save_conversation farmer_id data) st fs)) fs'
  = call (get_recent_conversations other limit) st fs'.
Proof.
  intros Hother. apply get_recent_conversations_ext. unfold farmer_messages.
  destruct (fails_within_cases fs) as [Hbad|Hok].
  - destruct (save_conversation_failed farmer_id data st fs Hbad)
      as (_ & -> & _). done.
  - destruct (save_conversation_ok farmer_id data st fs Hok) as (_ & -> & _).
    rewrite filter_app.
    rewrite (filter_none _ [_; _]); [by rewrite app_nil_r|].
    intros y Hy Hf. apply Hother.
    apply elem_of_cons in Hy as [->|Hy]; [done|].
    by apply list_elem_of_singleton in Hy as ->.
Qed.

Lemma save_leaves_other_farmers_alone_witness :
  call (get_recent_conversations 2 10)
    (committed (after (save_conversation 1 turn_data) sample_store [])) []
  = call (get_recent_conversations 2 10) sample_store [].
Proof. apply save_leaves_other_farmers_alone. discriminate. Defined.

(** ** Order of the approval queue *)

(** X7. The unapproved entries come newest first, and the approved list is
    empty on every path. *)
Theorem approval_queue_newest_first (st : Store) (fs : list (option exn))
    (q : approval_queue) :
  call get_conversations_for_approval st fs = Return q ->
  approved q = [] /\ Sorted newer_entry_first (unapproved q).
Proof.
  intros Hcall.
  destruct (get_conversations_for_approval_inv _ _ _ Hcall) as [Ha Hq].
  split; [done|]. destruct Hq as [->| ->]; [constructor|].
  apply (Sorted_fmap _ by_latest); [done|].
  apply Sorted_take, Sorted_merge_sort, _.
Qed.

Lemma approval_queue_newest_first_witness :
  Sorted newer_entry_first
    (approval_entry_of
       <$> [(long_question, green_acres); (empty_question, second_farmer)]).
Proof.
  destruct (approval_queue_newest_first sample_store []
              {| unapproved :=
                   approval_entry_of
                     <$> [(long_question, green_acres);
                          (empty_question, second_farmer)];
                 approved := [] |}) as [_ Hsorted].
  - vm_compute. reflexivity.
  - exact Hsorted.
Defined.

(** ** get_crop_info *)


Lemma get_crop_info_call crop_name st fs :
  call (get_crop_info crop_name) st fs
  = match first_fault fs with
    | Some _ => Return None
    | None =>
        Return (crop_info_of
                  <$> head (take 1
                              (remove_dups
                                 (filter (fun c => sql_lower <$> c
                                                   = Some (sql_lower crop_name))
                                    (crop_technology st)))))
    end.
Proof.
  destruct fs as [|[e|] fs]; [|reflexivity|];
    (unfold get_crop_info;
     rewrite (call_single_ok _ _ (fun rows => crop_info_of <$> head rows));
     first [reflexivity | intros rows w; by destruct (head rows)]).
Qed.

Lemma head_take_remove_dups {A} `{EqDecision A} (l : list A) x :
  head (take 1 (remove_dups l)) = Some x -> x ∈ l.
Proof.
  intros Hhd. apply head_Some_elem_of in Hhd.
  apply subseteq_take in Hhd. by apply elem_of_remove_dups.
Qed.

Lemma head_take_remove_dups_some {A} `{EqDecision A} (l : list A) x :
  x ∈ l -> exists y, head (take 1 (remove_dups l)) = Some y.
Proof.
  intros Hx. apply elem_of_remove_dups in Hx.
  destruct (remove_dups l) as [|y k]; [by apply elem_of_nil in Hx|].
  by exists y.
Qed.

(** X8. [get_crop_info] looks a crop up without regard to letter case, as
    LOWER folds it (accented Latin-1 capitals included).  A record it
    returns carries a crop_type stored in crop_technology whose lower-case
    form equals that of the name asked for, and the same name as
    croatian_name.  When the store answers and such a crop_type is stored, a
    record is returned; when none is stored the result is [None].  Two names
    that differ only in case give the same result. *)
Theorem get_crop_info_ignores_case (st : Store) (fs : list (option exn))
    (crop_name : string) :
  (forall c, call (get_crop_info crop_name) st fs = Return (Some c) ->
             Some (ci_crop_name c) ∈ crop_technology st
             /\ sql_lower (ci_crop_name c) = sql_lower crop_name
             /\ ci_croatian_name c = ci_crop_name c)
  /\ (first_fault fs = None ->
      forall stored, Some stored ∈ crop_technology st ->
                     sql_lower stored = sql_lower crop_name ->
                     exists c, call (get_crop_info crop_name) st fs
                               = Return (Some c))
  /\ ((forall stored, Some stored ∈ crop_technology st ->
                      sql_lower stored <> sql_lower crop_name) ->
      call (get_crop_info crop_name) st fs = Return None)
  /\ (forall other, sql_lower other = sql_lower crop_name ->
                    call (get_crop_info other) st fs
                    = call (get_crop_info crop_name) st fs).
Proof.
  rewrite get_crop_info_call. split_and!.
  - intros c Hc. destruct (first_fault fs); [done|]. injection Hc as Hc.
    destruct (head _) as [stored|] eqn:Hhd; [|done]. injection Hc as <-.
    apply head_take_remove_dups, list_elem_of_filter in Hhd as [Hlow Hin].
    destruct stored as [stored|]; [|done]. simpl in *.
    split_and!; [done|congruence|done].
  - intros -> stored Hin Hlow.
    destruct (head_take_remove_dups_some
                (filter (fun c => sql_lower <$> c = Some (sql_lower crop_name))
                   (crop_technology st)) (Some stored)) as [y ->].
    + apply list_elem_of_filter. split; [|done]. simpl. by rewrite Hlow.
    + by eexists.
  - intros Hnone. destruct (first_fault fs); [done|].
    rewrite filter_none; [done|].
    intros [stored|] Hin Hlow; [|done]. simpl in Hlow.
    apply (Hnone stored Hin). congruence.
  - intros other Hother. by rewrite get_crop_info_call, Hother.
Qed.

Lemma get_crop_info_ignores_case_witness :
  (exists c, call (get_crop_info "MAIZE") sample_store [] = Return (Some c))
  /\ call (get_crop_info "maize") sample_store []
     = call (get_crop_info "MAIZE") sample_store []
  /\ call (get_crop_info "rye") sample_store [] = Return None
  /\ (exists c, call (get_crop_info spelt_small) spelt_store []
                = Return (Some c)).
Proof.
  split_and!; cycle 3.
  { apply (proj1 (proj2 (get_crop_info_ignores_case spelt_store []
                           spelt_small)) eq_refl spelt_capital);
      [left|reflexivity]. }
  - apply (proj1 (proj2 (get_crop_info_ignores_case sample_store [] "MAIZE"))
             eq_refl "Maize"); [left|reflexivity].
  - by apply (proj2 (proj2 (proj2 (get_crop_info_ignores_case sample_store []
                                      "MAIZE")))).
  - apply (proj1 (proj2 (proj2 (get_crop_info_ignores_case sample_store []
                                  "rye")))).
    intros stored Hin.
    apply elem_of_cons in Hin as [[= ->]|Hin]; [discriminate|].
    apply list_elem_of_singleton in Hin as [= ->]. discriminate.
Defined.

(** ** get_conversation_details *)

Lemma NoDup_fmap_eq {A B} (f : A -> B) (l : list A) x y :
  NoDup (f <$> l) -> x ∈ l -> y ∈ l -> f x = f y -> x = y.
Proof.
  induction l as [|z l IH]; intros Hnd Hx Hy Heq; [by apply elem_of_nil in Hx|].
  rewrite fmap_cons in Hnd. apply NoDup_cons in Hnd as [Hz Hnd].
  apply elem_of_cons in Hx as [->|Hx]; apply elem_of_cons in Hy as [->|Hy].
  - done.
  - destruct Hz. rewrite Heq. by apply list_elem_of_fmap_2.
  - destruct Hz. rewrite <- Heq. by apply list_elem_of_fmap_2.
  - by apply IH.
Qed.

(** X9. [get_conversation_details] finds a message only together with its
    farmer.  When the store answers and the message with the requested id
    has a row in farmers, a record with that id is returned, and with unique
    message ids it carries that message's farmer id, timestamp and slots.
    When no message with that id has a farmers row (there is no such
    message, or its farmer is unknown) the result is [None]. *)
Theorem conversation_details_need_the_farmer (st : Store)
    (fs : list (option exn)) (conversation_id : Z) :
  (first_fault fs = None ->
   forall m f,
     m ∈ incoming_messages st -> f ∈ farmers st ->
     m_farmer_id m = f_id f -> m_id m = conversation_id ->
     exists d,
       call (get_conversation_details conversation_id) st fs = Return (Some d)
       /\ dv_id d = conversation_id
       /\ (NoDup (m_id <$> incoming_messages st) ->
           dv_farmer_id d = m_farmer_id m
           /\ dv_timestamp d = m_timestamp m
           /\ dv_user_input d = slot "user" (m_role m) (m_message_text m)
           /\ dv_ava_response d
              = slot "assistant" (m_role m) (m_message_text m)))
  /\ ((forall m f,
          m ∈ incoming_messages st -> f ∈ farmers st ->
          m_id m = conversation_id -> m_farmer_id m <> f_id f) ->
      call (get_conversation_details conversation_id) st fs = Return None).
Proof.
  rewrite get_conversation_details_call. split.
  - intros -> m f Hm Hf Hjoin Hid.
    destruct (head_filter_some (fun r : message_row * farmer_row =>
                                  m_id r.1 = conversation_id)
                (join_farmers (incoming_messages st) (farmers st)) (m, f))
      as (r & -> & Hrid & Hr); [by apply join_farmers_elem|done|].
    apply join_farmers_elem in Hr as (Hrm & _ & _).
    exists (detail_view_of r). split_and!; [done..|].
    intros Hnd.
    assert (r.1 = m) as <-; [|done].
    apply (NoDup_fmap_eq m_id (incoming_messages st)); [done..|]. congruence.
  - intros Hnone. destruct (first_fault fs); [done|].
    rewrite filter_none; [done|].
    intros r Hr Hid. apply join_farmers_elem in Hr as (Hm & Hf & Hjoin).
    by apply (Hnone r.1 r.2).
Qed.

Lemma conversation_details_need_the_farmer_witness :
  (exists d,
      call (get_conversation_details 2) sample_store [] = Return (Some d)
      /\ dv_id d = 2
      /\ (NoDup (m_id <$> incoming_messages sample_store) ->
          dv_farmer_id d = m_farmer_id first_answer
          /\ dv_timestamp d = m_timestamp first_answer
          /\ dv_user_input d
             = slot "user" (m_role first_answer) (m_message_text first_answer)
          /\ dv_ava_response d
             = slot "assistant" (m_role first_answer)
                 (m_message_text first_answer)))
  /\ call (get_conversation_details 9) sample_store [] = Return None.
Proof.
  split.
  - apply (proj1 (conversation_details_need_the_farmer sample_store [] 2)
             eq_refl first_answer green_acres).
    + right. left.
    + left.
    + reflexivity.
    + reflexivity.
  - apply (proj2 (conversation_details_need_the_farmer sample_store [] 9)).
    intros m f Hm _ Hid.
    assert (Hall : Forall (fun m => m_id m <> 9) (incoming_messages sample_store))
      by (apply (bool_decide_unpack _); vm_compute; exact I).
    rewrite Forall_forall in Hall. by destruct (Hall m Hm).
Defined.

(** ** get_all_farmers, continued *)

Lemma get_all_farmers_call limit st fs :
  call (get_all_farmers limit) st fs
  = match first_fault fs with
    | Some _ => Return []
    | None =>
        if limit_in_range limit
        then Return (farmer_summary_of
                       <$> take (Z.to_nat limit)
                             (merge_sort by_farm_name (farmers st)))
        else Return []
    end.
Proof.
  destruct fs as [|[e|] fs]; [|reflexivity|];
    (unfold get_all_farmers;
     rewrite (call_single_ok _ _ (fmap farmer_summary_of)) by done;
     unfold sql_all_farmers, limit_rows; by destruct (limit_in_range limit)).
Qed.

(** X10. When the store answers and [limit] is a bigint that is not
    negative, [get_all_farmers] returns exactly the smaller of [limit] and
    the number of farmers; with a limit that covers the table, every farmer
    appears exactly once.  With any other limit the statement is rejected
    and the result is empty, however many farmers are stored. *)
Theorem get_all_farmers_is_complete (st : Store) (fs : list (option exn))
    (limit : Z) :
  (first_fault fs = None -> 0 <= limit <= 9223372036854775807 ->
   exists out,
     call (get_all_farmers limit) st fs = Return out
     /\ length out = Nat.min (Z.to_nat limit) (length (farmers st))
     /\ (Z.of_nat (length (farmers st)) <= limit ->
         fs_id <$> out ≡ₚ f_id <$> farmers st))
  /\ (limit < 0 \/ 9223372036854775807 < limit ->
      call (get_all_farmers limit) st fs = Return []).
Proof.
  split; cycle 1.
  { intros Hout. rewrite get_all_farmers_call.
    destruct (first_fault fs); [done|].
    destruct (limit_in_range limit) eqn:Hr; [|done].
    apply limit_in_range_spec in Hr. lia. }
  intros Hfs Hlim. rewrite get_all_farmers_call, Hfs.
  rewrite limit_in_range_true by done.
  eexists. split_and!; [done| |].
  - by rewrite length_fmap, length_take, merge_sort_Permutation.
  - intros Hall. rewrite <- list_fmap_compose.
    rewrite take_ge by (rewrite merge_sort_Permutation; lia).
    by rewrite merge_sort_Permutation.
Qed.

Lemma get_all_farmers_is_complete_witness :
  (exists out,
      call (get_all_farmers 10) sample_store [] = Return out
      /\ length out = 3%nat
      /\ fs_id <$> out ≡ₚ [1; 2; 3])
  /\ call (get_all_farmers 9223372036854775808) sample_store [] = Return [].
Proof.
  split.
  - destruct (proj1 (get_all_farmers_is_complete sample_store [] 10)
                eq_refl ltac:(lia)) as (out & Hcall & Hlen & Hall).
    exists out. split_and!; [done|done|].
    apply Hall. simpl. lia.
  - apply (proj2 (get_all_farmers_is_complete sample_store []
                    9223372036854775808)).
    right. lia.
Defined.

(** X11. A farmer that [get_all_farmers] lists can be fetched: when the
    store answers, [get_farmer_info] on the id of a listed summary returns a
    record with that id. *)
Theorem listed_farmer_can_be_fetched (st : Store) (fs fs' : list (option exn))
    (limit : Z) (out : list farmer_summary) (s : farmer_summary) :
  call (get_all_farmers limit) st fs = Return out ->
  s ∈ out ->
  first_fault fs' = None ->
  exists info,
    call (get_farmer_info (fs_id s)) st fs' = Return (Some info)
    /\ fi_id info = fs_id s.
Proof.
  intros Hcall Hs Hfs'.
  destruct (get_all_farmers_inv _ _ _ _ Hcall) as [->|[_ ->]];
    [by apply elem_of_nil in Hs|].
  apply list_elem_of_fmap in Hs as (r & -> & Hr).
  apply subseteq_take in Hr. rewrite merge_sort_Permutation in Hr.
  rewrite get_farmer_info_ok by done.
  destruct (head_filter_some (fun x => f_id x = f_id r) (farmers st) r)
    as (y & Hhd & Hy & _); [done..|].
  exists (farmer_info_of y). simpl. by rewrite Hhd.
Qed.

Lemma listed_farmer_can_be_fetched_witness :
  exists info,
    call (get_farmer_info (fs_id (farmer_summary_of zeta_farmer)))
      sample_store [] = Return (Some info)
    /\ fi_id info = fs_id (farmer_summary_of zeta_farmer).
Proof.
  apply (listed_farmer_can_be_fetched sample_store [] [] 10
           (farmer_summary_of <$> [green_acres; zeta_farmer; second_farmer])).
  - vm_compute. reflexivity.
  - right. left.
  - reflexivity.
Defined.

(** ** get_farmer_fields, continued *)

#[global] Instance by_field_name_total : Total by_field_name.
Proof.
  intros a b. unfold by_field_name, text_le.
  destruct (fd_field_name a.1) as [x|], (fd_field_name b.1) as [y|]; auto.
  apply String.leb_total.
Qed.




(** ** Display names *)

Lemma all_space_app a b :
  all_space (a +:+ b) = all_space a && all_space b.
Proof.
  induction a as [|c a IH]; [done|].
  change (String c a +:+ b) with (String c (a +:+ b)). simpl.
  rewrite IH. by destruct (Py.isspace c).
Qed.

Lemma lstrip_all_space s : all_space s = true -> Py.lstrip s = "".
Proof.
  induction s as [|c s IH]; [done|]. simpl.
  destruct (Py.isspace c); [|done]. exact IH.
Qed.

(** X13. The name built from the manager's name parts (in the farmer list,
    the approval queue and the conversation details) never starts or ends
    with whitespace.  When both parts are present but blank it is the empty
    string, not "Unknown". *)
Theorem display_name_is_trimmed (a b : option string) :
  starts_with_space (display_name a b) = false
  /\ ends_with_space (display_name a b) = false
  /\ (forall x y,
         a = Some x -> b = Some y -> x <> "" -> y <> "" ->
         all_space x = true -> all_space y = true ->
         display_name a b = "").
Proof.
  split_and!.
  - unfold display_name. destruct (Py.truthy a && Py.truthy b); [|done].
    apply strip_trimmed.
  - unfold display_name. destruct (Py.truthy a && Py.truthy b); [|done].
    apply strip_trimmed.
  - intros x y -> -> Hx Hy Hxs Hys.
    rewrite display_name_present by done.
    unfold Py.strip. rewrite lstrip_all_space; [done|].
    rewrite !all_space_app, Hxs, Hys. done.
Qed.

Lemma display_name_is_trimmed_witness :
  display_name (Some " ") (Some "  ") = "".
Proof.
  apply (display_name_is_trimmed (Some " ") (Some "  ")) with " " "  ";
    done.
Defined.

(** ** The constructor *)

Lemma startswith_app s prefix :
  startswith s prefix = true <-> exists rest, s = prefix +:+ rest.
Proof.
  revert s. induction prefix as [|p prefix IH]; intros s.
  - split; [intros _; by exists s|by destruct s].
  - destruct s as [|c s]; simpl; [split; [done|intros [rest [=]]]|].
    case_decide as Hc.
    + subst c. rewrite IH. split; intros [rest Hrest]; exists rest.
      * change (String p prefix +:+ rest) with (String p (prefix +:+ rest)).
        by rewrite Hrest.
      * by injection Hrest.
    + split; [done|]. intros [rest [= ? _]]. done.
Qed.

(** X14. The constructor goes on only with a connection string that begins
    with postgresql:// and asserts otherwise.  The string it checks is the
    one passed in, or [DATABASE_URL] when none or an empty one is passed. *)
Theorem init_accepts_only_postgresql (connection_string : option string)
    (DATABASE_URL : string) :
  (forall cs,
      init_connection_string connection_string DATABASE_URL = Some cs <->
      cs = effective_connection_string connection_string DATABASE_URL
      /\ exists rest, cs = "postgresql://" +:+ rest)
  /\ (forall s, connection_string = Some s -> s <> "" ->
                effective_connection_string connection_string DATABASE_URL = s)
  /\ (connection_string = None \/ connection_string = Some "" ->
      effective_connection_string connection_string DATABASE_URL
      = DATABASE_URL).
Proof.
  split_and!.
  - intros cs. unfold init_connection_string.
    destruct (startswith _ "postgresql://") eqn:Hs.
    + apply startswith_app in Hs. split.
      * by intros [= <-].
      * by intros [-> _].
    + split; [done|]. intros [-> Hrest].
      apply startswith_app in Hrest. congruence.
  - intros s -> Hs. by destruct s.
  - by intros [-> | ->].
Qed.

Lemma init_accepts_only_postgresql_witness :
  init_connection_string (Some "") "postgresql://crm@host/farmer_crm"
  = Some "postgresql://crm@host/farmer_crm"
  /\ init_connection_string (Some "postgres://crm@host/farmer_crm")
       "postgresql://crm@host/farmer_crm" = None.
Proof.
  split.
  - apply (proj1 (init_accepts_only_postgresql (Some "")
                    "postgresql://crm@host/farmer_crm")).
    split; [reflexivity|]. by exists "crm@host/farmer_crm".
  - destruct (init_connection_string (Some "postgres://crm@host/farmer_crm")
                "postgresql://crm@host/farmer_crm") as [cs|] eqn:Hinit;
      [|reflexivity].
    apply (proj1 (init_accepts_only_postgresql
                    (Some "postgres://crm@host/farmer_crm")
                    "postgresql://crm@host/farmer_crm")) in Hinit
      as [-> [rest Hrest]].
    vm_compute in Hrest. discriminate.
Defined.

(** ** save_conversation, then the approval queue *)




